(** * The catalog store of MovieZoneBot (database.py)

    A shallow embedding of the JSON-file document store: the durable
    documents are JSON values, every store function is a computation over
    the six files of the data directory that either returns a value or
    raises a Python exception, and the properties of the store are proved
    about these computations.

    Conventions of the embedding.
    - A JSON document is a [json] value.  Numbers are the integers: a
      document holding a fractional number has no counterpart here.
      Python's [None] is [JNull], a Python [dict] is an association list
      in insertion order.
    - A Python [str] is a Rocq [string] holding its UTF-8 bytes.  Equality,
      ordering and substring search on the bytes agree with Python's on the
      code points.  [str.lower], [str.upper] and the [repr] of a container
      are not defined here: they are parameters of the development, and
      everything is proved for every choice of them.
    - [datetime.now().isoformat()] is an explicit argument [now].
    - [save_json] is a write that succeeds; the logger has no effect on the
      documents and is left out. *)

From Stdlib Require Import ZArith List String Ascii Bool Lia.
From Stdlib Require Import Permutation Sorted OrdersEx.
From Stdlib Require Import DecimalString DecimalZ DecimalPos.
Import ListNotations.
Local Open Scope string_scope.
Local Open Scope Z_scope.
Local Open Scope list_scope.

(** ** JSON values and Python dictionaries *)

#[local] Set Warnings "-register-all".

Inductive json : Type :=
| JNull
| JBool (b : bool)
| JInt (n : Z)
| JStr (s : string)
| JList (l : list json)
| JDict (d : list (string * json)).

Definition dict : Type := list (string * json).

(** [d.get(k)] as an option: the first binding of [k]. *)
Fixpoint dict_get (k : string) (d : dict) : option json :=
  match d with
  | [] => None
  | (k', v) :: d' => if String.eqb k k' then Some v else dict_get k d'
  end.

(** [k in d] *)
Definition dict_mem (k : string) (d : dict) : bool :=
  match dict_get k d with Some _ => true | None => false end.

(** [d[k] = v]: an existing key keeps its place, a new key goes last. *)
Fixpoint dict_set (k : string) (v : json) (d : dict) : dict :=
  match d with
  | [] => [(k, v)]
  | (k', v') :: d' =>
      if String.eqb k k' then (k', v) :: d' else (k', v') :: dict_set k v d'
  end.

(** [del d[k]] *)
Fixpoint dict_del (k : string) (d : dict) : dict :=
  match d with
  | [] => []
  | (k', v') :: d' =>
      if String.eqb k k' then d' else (k', v') :: dict_del k d'
  end.

Definition dict_keys (d : dict) : list string := map fst d.
Definition dict_values (d : dict) : list json := map snd d.

(** A Python dict has no repeated key. *)
Fixpoint distinct_keys (ks : list string) : bool :=
  match ks with
  | [] => true
  | k :: ks' => negb (existsb (String.eqb k) ks') && distinct_keys ks'
  end.

(** ** Strings *)

(** [str(n)] for an integer: its decimal numeral. *)
Definition str_of_Z (n : Z) : string := NilZero.string_of_int (Z.to_int n).

(** The value of a numeric key: the integer [k] is a decimal numeral of,
    if it is one. *)
Definition numeric_key (k : string) : option Z :=
  option_map Z.of_int (NilZero.int_of_string k).

(** [needle in hay] on strings. *)
Fixpoint str_contains (needle hay : string) : bool :=
  String.prefix needle hay
  || match hay with
     | EmptyString => false
     | String _ hay' => str_contains needle hay'
     end.

(** Number of bytes of the UTF-8 character that starts with byte [c]. *)
Definition utf8_width (c : ascii) : nat :=
  let n := nat_of_ascii c in
  if (n <? 192)%nat then 1%nat
  else if (n <? 224)%nat then 2%nat
  else if (n <? 240)%nat then 3%nat else 4%nat.

(** [s[0]] for a non-empty string: its first character. *)
Definition first_char (s : string) : string :=
  match s with
  | EmptyString => EmptyString
  | String c _ => String.substring 0 (utf8_width c) s
  end.

Fixpoint chars_fuel (fuel : nat) (s : string) : list string :=
  match fuel with
  | O => []
  | S fuel' =>
      match s with
      | EmptyString => []
      | String c _ =>
          let w := utf8_width c in
          String.substring 0 w s
            :: chars_fuel fuel' (String.substring w (String.length s - w) s)
      end
  end.

(** The characters of a string, as iteration over it yields them. *)
Definition str_chars (s : string) : list string :=
  chars_fuel (String.length s) s.

(** ASCII case mappings: what [str.lower] and [str.upper] do on ASCII text;
    used to run the store on concrete documents. *)
Definition ascii_lower_char (c : ascii) : ascii :=
  let n := nat_of_ascii c in
  if ((65 <=? n) && (n <=? 90))%nat then ascii_of_nat (n + 32) else c.

Definition ascii_upper_char (c : ascii) : ascii :=
  let n := nat_of_ascii c in
  if ((97 <=? n) && (n <=? 122))%nat then ascii_of_nat (n - 32) else c.

Fixpoint string_map (f : ascii -> ascii) (s : string) : string :=
  match s with
  | EmptyString => EmptyString
  | String c s' => String (f c) (string_map f s')
  end.

Definition ascii_lower : string -> string := string_map ascii_lower_char.
Definition ascii_upper : string -> string := string_map ascii_upper_char.

(** A stand-in for the [repr] of a list or dict, used to run the store on
    documents whose ids are integers, where it is never consulted. *)
Definition plain_repr (j : json) : string := "<container>".

(** ** Exceptions and results *)

Inductive exn : Type := KeyError | TypeError | AttributeError | IndexError.

Inductive result (A : Type) : Type :=
| Ok (a : A)
| Raise (e : exn).
Arguments Ok {A} a.
Arguments Raise {A} e.

Definition rbind {A B : Type} (r : result A) (f : A -> result B) : result B :=
  match r with
  | Ok a => f a
  | Raise e => Raise e
  end.

Notation "x <- c ;; k" := (rbind c (fun x => k))
  (at level 61, c at next level, right associativity).

Fixpoint map_result {A B : Type} (f : A -> result B) (l : list A)
  : result (list B) :=
  match l with
  | [] => Ok []
  | x :: l' => y <- f x ;; ys <- map_result f l' ;; Ok (y :: ys)
  end.

(** ** The data directory *)

Inductive path : Type :=
| USERS_FILE | ADMINS_FILE | MOVIES_FILE
| CHANNELS_FILE | REQUESTS_FILE | TOKENS_FILE.

(** What a path of the data directory holds: nothing, text that is not
    JSON, or a JSON document. *)
Inductive file : Type :=
| Absent
| Garbled
| Doc (j : json).

Record store : Type := mkStore {
  users_file : file;
  admins_file : file;
  movies_file : file;
  channels_file : file;
  requests_file : file;
  tokens_file : file
}.

Definition read (p : path) (st : store) : file :=
  match p with
  | USERS_FILE => users_file st
  | ADMINS_FILE => admins_file st
  | MOVIES_FILE => movies_file st
  | CHANNELS_FILE => channels_file st
  | REQUESTS_FILE => requests_file st
  | TOKENS_FILE => tokens_file st
  end.

Definition write (p : path) (f : file) (st : store) : store :=
  match p with
  | USERS_FILE =>
      mkStore f (admins_file st) (movies_file st) (channels_file st)
        (requests_file st) (tokens_file st)
  | ADMINS_FILE =>
      mkStore (users_file st) f (movies_file st) (channels_file st)
        (requests_file st) (tokens_file st)
  | MOVIES_FILE =>
      mkStore (users_file st) (admins_file st) f (channels_file st)
        (requests_file st) (tokens_file st)
  | CHANNELS_FILE =>
      mkStore (users_file st) (admins_file st) (movies_file st) f
        (requests_file st) (tokens_file st)
  | REQUESTS_FILE =>
      mkStore (users_file st) (admins_file st) (movies_file st)
        (channels_file st) f (tokens_file st)
  | TOKENS_FILE =>
      mkStore (users_file st) (admins_file st) (movies_file st)
        (channels_file st) (requests_file st) f
  end.

(** A store function: it reads and writes the files and returns or raises.
    The files survive an exception as they were when it was raised. *)
Definition M (A : Type) : Type := store -> result A * store.

Definition ret {A : Type} (a : A) : M A := fun st => (Ok a, st).

Definition lift {A : Type} (r : result A) : M A := fun st => (r, st).

Definition bind {A B : Type} (m : M A) (f : A -> M B) : M B :=
  fun st =>
    match m st with
    | (Ok a, st') => f a st'
    | (Raise e, st') => (Raise e, st')
    end.

Notation "x <<- c ;; k" := (bind c (fun x => k))
  (at level 61, c at next level, right associativity).

(** [load_json]: the document, or the empty dict when the file is missing
    or does not decode. *)
Definition load_json (p : path) : M json :=
  fun st =>
    (Ok match read p st with
        | Doc j => j
        | Absent | Garbled => JDict []
        end, st).

(** [save_json] *)
Definition save_json (p : path) (data : json) : M unit :=
  fun st => (Ok tt, write p (Doc data) st).

(** The documents [initialize_database] writes. *)
Definition default_document (p : path) : json :=
  match p with
  | MOVIES_FILE => JDict [("next_id", JInt 1); ("movies", JDict [])]
  | REQUESTS_FILE => JDict [("next_id", JInt 1); ("requests", JDict [])]
  | _ => JDict []
  end.

Definition init_file (p : path) : M unit :=
  fun st =>
    match read p st with
    | Absent => (Ok tt, write p (Doc (default_document p)) st)
    | _ => (Ok tt, st)
    end.

Definition initialize_database : M unit :=
  _ <<- init_file USERS_FILE ;;
  _ <<- init_file ADMINS_FILE ;;
  _ <<- init_file MOVIES_FILE ;;
  _ <<- init_file CHANNELS_FILE ;;
  _ <<- init_file REQUESTS_FILE ;;
  init_file TOKENS_FILE.

(** ** Python operations on JSON values *)

Section Store.

(** [str.lower], [str.upper], and [repr] on lists and dicts. *)
Variable lower : string -> string.
Variable upper : string -> string.
Variable repr : json -> string.

(** [j[k]] for a string [k] *)
Definition py_getitem (j : json) (k : string) : result json :=
  match j with
  | JDict d =>
      match dict_get k d with
      | Some v => Ok v
      | None => Raise KeyError
      end
  | _ => Raise TypeError
  end.

(** [j.get(k, default)] *)
Definition py_get (j : json) (k : string) (default : json) : result json :=
  match j with
  | JDict d =>
      match dict_get k d with
      | Some v => Ok v
      | None => Ok default
      end
  | _ => Raise AttributeError
  end.

(** [j[k] = v] for a string [k] *)
Definition py_setitem (j : json) (k : string) (v : json) : result json :=
  match j with
  | JDict d => Ok (JDict (dict_set k v d))
  | _ => Raise TypeError
  end.

(** [del j[k]] for a string [k] *)
Definition py_delitem (j : json) (k : string) : result json :=
  match j with
  | JDict d =>
      if dict_mem k d then Ok (JDict (dict_del k d)) else Raise KeyError
  | _ => Raise TypeError
  end.

(** [j == s] for a string [s] *)
Definition py_eq_str (j : json) (s : string) : bool :=
  match j with
  | JStr s' => String.eqb s' s
  | _ => false
  end.

(** The integer a value compares as: [bool] is a subtype of [int]. *)
Definition as_int (j : json) : option Z :=
  match j with
  | JInt n => Some n
  | JBool true => Some 1
  | JBool false => Some 0
  | _ => None
  end.

(** [j == n] for an integer [n] *)
Definition py_eq_int (j : json) (n : Z) : bool :=
  match as_int j with
  | Some m => m =? n
  | None => false
  end.

(** [j == o] for an optional string [o] *)
Definition py_eq_optstr (j : json) (o : option string) : bool :=
  match o, j with
  | Some s, _ => py_eq_str j s
  | None, JNull => true
  | None, _ => false
  end.

Definition json_of_optstr (o : option string) : json :=
  match o with
  | Some s => JStr s
  | None => JNull
  end.

(** [k in j] for a string [k] *)
Definition py_contains (k : string) (j : json) : result bool :=
  match j with
  | JDict d => Ok (dict_mem k d)
  | JList l => Ok (existsb (fun x => py_eq_str x k) l)
  | JStr s => Ok (str_contains k s)
  | _ => Raise TypeError
  end.

(** [j.values()] *)
Definition py_values (j : json) : result (list json) :=
  match j with
  | JDict d => Ok (dict_values d)
  | _ => Raise AttributeError
  end.

(** [j.items()] *)
Definition py_items (j : json) : result (list (string * json)) :=
  match j with
  | JDict d => Ok d
  | _ => Raise AttributeError
  end.

(** The elements [for x in j] runs over. *)
Definition py_iter (j : json) : result (list json) :=
  match j with
  | JList l => Ok l
  | JStr s => Ok (map JStr (str_chars s))
  | JDict d => Ok (map JStr (dict_keys d))
  | _ => Raise TypeError
  end.

(** [j.lower()] and [j.upper()] *)
Definition py_lower (j : json) : result string :=
  match j with
  | JStr s => Ok (lower s)
  | _ => Raise AttributeError
  end.

Definition py_upper (j : json) : result string :=
  match j with
  | JStr s => Ok (upper s)
  | _ => Raise AttributeError
  end.

(** Truth value of [j] in a condition. *)
Definition py_truthy (j : json) : bool :=
  match j with
  | JNull => false
  | JBool b => b
  | JInt n => negb (n =? 0)
  | JStr s => negb (String.eqb s EmptyString)
  | JList l => match l with [] => false | _ => true end
  | JDict d => match d with [] => false | _ => true end
  end.

(** [j[0]] *)
Definition py_index0 (j : json) : result json :=
  match j with
  | JStr EmptyString => Raise IndexError
  | JStr s => Ok (JStr (first_char s))
  | JList [] => Raise IndexError
  | JList (x :: _) => Ok x
  | JDict _ => Raise KeyError
  | _ => Raise TypeError
  end.

(** [str(j)] *)
Definition py_str (j : json) : string :=
  match j with
  | JNull => "None"
  | JBool true => "True"
  | JBool false => "False"
  | JInt n => str_of_Z n
  | JStr s => s
  | JList _ | JDict _ => repr j
  end.

(** [j + 1] *)
Definition py_add1 (j : json) : result json :=
  match as_int j with
  | Some n => Ok (JInt (n + 1))
  | None => Raise TypeError
  end.

(** [a < b] between two sort keys: integers among themselves, strings
    among themselves.  (Two lists, which Python orders elementwise, are
    not ordered here.) *)
Definition py_lt (a b : json) : result bool :=
  match as_int a, as_int b with
  | Some x, Some y => Ok (x <? y)
  | _, _ =>
      match a, b with
      | JStr s, JStr t => Ok (String.ltb s t)
      | _, _ => Raise TypeError
      end
  end.

(** [l[start:stop]] *)
Definition py_slice {A : Type} (l : list A) (start stop : Z) : list A :=
  let len := Z.of_nat (List.length l) in
  let clamp i := if i <? 0 then Z.max 0 (i + len) else Z.min i len in
  let s := clamp start in
  let e := clamp stop in
  firstn (Z.to_nat (e - s)) (skipn (Z.to_nat s) l).

(** *** [list.sort(key=..., reverse=...)]

    The keys are computed first, one per element; the elements are then
    sorted stably on their keys with [<].  With [reverse] the list is
    reversed before and after, so that equal keys keep their order. *)

Fixpoint insert_keyed (x : json * json) (l : list (json * json))
  : result (list (json * json)) :=
  match l with
  | [] => Ok [x]
  | y :: l' =>
      b <- py_lt (fst y) (fst x) ;;
      if b then (r <- insert_keyed x l' ;; Ok (y :: r))
      else Ok (x :: y :: l')
  end.

Fixpoint sort_keyed (l : list (json * json)) : result (list (json * json)) :=
  match l with
  | [] => Ok []
  | x :: l' => s <- sort_keyed l' ;; insert_keyed x s
  end.

Definition list_sort (key : json -> result json) (reverse : bool)
  (l : list json) : result (list json) :=
  keys <- map_result key l ;;
  let kl := combine keys l in
  s <- sort_keyed (if reverse then rev kl else kl) ;;
  Ok (map snd (if reverse then rev s else s)).

(** ** The store functions *)

(** [config.OWNER_ID] *)
Definition OWNER_ID : Z := 5379553841.

(** The category that stands for every movie. *)
Definition ALL_CATEGORY : string := "All 🌐".

(** *** Users *)

Definition user_exists (user_id : Z) : M bool :=
  users <<- load_json USERS_FILE ;;
  lift (py_contains (str_of_Z user_id) users).

Definition add_user_if_not_exists (user_id : Z) (first_name : string)
  (username : option string) (now : string) : M bool :=
  users <<- load_json USERS_FILE ;;
  let user_id_str := str_of_Z user_id in
  present <<- lift (py_contains user_id_str users) ;;
  if negb present then
    users' <<- lift (py_setitem users user_id_str
                       (JDict [("user_id", JInt user_id);
                               ("first_name", JStr first_name);
                               ("username", json_of_optstr username);
                               ("joined_at", JStr now);
                               ("is_active", JBool true)])) ;;
    _ <<- save_json USERS_FILE users' ;;
    ret true
  else
    user <<- lift (py_getitem users user_id_str) ;;
    fn <<- lift (py_get user "first_name" JNull) ;;
    u1 <<- lift (if negb (py_eq_str fn first_name)
                 then (u <- py_setitem user "first_name" (JStr first_name) ;;
                       Ok (u, true))
                 else Ok (user, false)) ;;
    un <<- lift (py_get (fst u1) "username" JNull) ;;
    u2 <<- lift (if negb (py_eq_optstr un username)
                 then (u <- py_setitem (fst u1) "username"
                             (json_of_optstr username) ;;
                       Ok (u, true))
                 else Ok u1) ;;
    if snd u2 then
      users' <<- lift (py_setitem users user_id_str (fst u2)) ;;
      _ <<- save_json USERS_FILE users' ;;
      ret false
    else ret false.

Definition get_user_role (user_id : Z) : M string :=
  if user_id =? OWNER_ID then ret "owner"
  else
    admins <<- load_json ADMINS_FILE ;;
    is_admin <<- lift (py_contains (str_of_Z user_id) admins) ;;
    if is_admin then ret "admin" else ret "user".

(** *** Admins *)

Definition add_admin (admin_id : Z) (short_name first_name : string)
  (username : option string) (now : string) : M bool :=
  admins <<- load_json ADMINS_FILE ;;
  let admin_id_str := str_of_Z admin_id in
  present <<- lift (py_contains admin_id_str admins) ;;
  if present then ret false
  else
    admins' <<- lift (py_setitem admins admin_id_str
                        (JDict [("user_id", JInt admin_id);
                                ("short_name", JStr short_name);
                                ("first_name", JStr first_name);
                                ("username", json_of_optstr username);
                                ("added_at", JStr now)])) ;;
    _ <<- save_json ADMINS_FILE admins' ;;
    ret true.

Definition get_admin_info (admin_id : Z) : M json :=
  admins <<- load_json ADMINS_FILE ;;
  lift (py_get admins (str_of_Z admin_id) JNull).

(** The loop of [remove_admin] and [remove_channel] over [items()]: the key
    of the first record whose short name is the identifier. *)
Fixpoint find_short_name (identifier : string) (items : list (string * json))
  : result (option string) :=
  match items with
  | [] => Ok None
  | (k, data) :: rest =>
      sn <- py_get data "short_name" JNull ;;
      if py_eq_str sn identifier then Ok (Some k)
      else find_short_name identifier rest
  end.

(** The body [remove_admin] and [remove_channel] share, on the file [p]. *)
Definition remove_keyed (p : path) (identifier : string) : M bool :=
  coll <<- load_json p ;;
  present <<- lift (py_contains identifier coll) ;;
  if present then
    coll' <<- lift (py_delitem coll identifier) ;;
    _ <<- save_json p coll' ;;
    ret true
  else
    items <<- lift (py_items coll) ;;
    found <<- lift (find_short_name identifier items) ;;
    match found with
    | Some k =>
        coll' <<- lift (py_delitem coll k) ;;
        _ <<- save_json p coll' ;;
        ret true
    | None => ret false
    end.

Definition remove_admin (identifier : string) : M bool :=
  remove_keyed ADMINS_FILE identifier.

Definition get_all_admins : M (list json) :=
  admins <<- load_json ADMINS_FILE ;;
  lift (py_values admins).

(** *** Movies *)

Definition add_movie (movie_data : dict) (now : string) : M json :=
  movies <<- load_json MOVIES_FILE ;;
  movie_id <<- lift (py_getitem movies "next_id") ;;
  let movie_data :=
    dict_set "download_count" (JInt 0)
      (dict_set "added_at" (JStr now)
         (dict_set "movie_id" movie_id movie_data)) in
  movies <<- lift (ms <- py_getitem movies "movies" ;;
                   ms' <- py_setitem ms (py_str movie_id) (JDict movie_data) ;;
                   movies <- py_setitem movies "movies" ms' ;;
                   next <- py_getitem movies "next_id" ;;
                   next' <- py_add1 next ;;
                   py_setitem movies "next_id" next') ;;
  _ <<- save_json MOVIES_FILE movies ;;
  ret movie_id.

Definition get_movie_details (movie_id : Z) : M json :=
  movies <<- load_json MOVIES_FILE ;;
  lift (ms <- py_getitem movies "movies" ;;
        py_get ms (str_of_Z movie_id) JNull).

(** A scan that appends the values passing [test] and breaks once the
    results number [limit] or more; [found] results are already held. *)
Fixpoint collect_until (test : json -> result bool) (limit found : Z)
  (vals : list json) : result (list json) :=
  match vals with
  | [] => Ok []
  | v :: rest =>
      b <- test v ;;
      if b then
        if found + 1 >=? limit then Ok [v]
        else (tl <- collect_until test limit (found + 1) rest ;; Ok (v :: tl))
      else collect_until test limit found rest
  end.

Definition search_movies (query : string) (limit : Z) : M (list json) :=
  movies <<- load_json MOVIES_FILE ;;
  let query_lower := lower query in
  lift (ms <- py_getitem movies "movies" ;;
        vals <- py_values ms ;;
        collect_until
          (fun movie_data =>
             t <- py_get movie_data "title" (JStr "") ;;
             title <- py_lower t ;;
             Ok (str_contains query_lower title))
          limit 0 vals).

Definition get_movies_by_first_letter (letter : string) (limit : Z)
  : M (list json) :=
  movies <<- load_json MOVIES_FILE ;;
  let letter_upper := upper letter in
  lift (ms <- py_getitem movies "movies" ;;
        vals <- py_values ms ;;
        collect_until
          (fun movie_data =>
             title <- py_get movie_data "title" (JStr "") ;;
             if py_truthy title then
               c <- py_index0 title ;;
               u <- py_upper c ;;
               Ok (String.eqb u letter_upper)
             else Ok false)
          limit 0 vals).

(** The loop of [get_movies_by_category] that keeps the movies one of
    whose categories is [category]. *)
Fixpoint filter_category (category : string) (vals : list json)
  : result (list json) :=
  match vals with
  | [] => Ok []
  | movie_data :: rest =>
      categories <- py_get movie_data "categories" (JList []) ;;
      cs <- py_iter categories ;;
      tl <- filter_category category rest ;;
      Ok (if existsb (fun c => py_eq_str c category) cs
          then movie_data :: tl else tl)
  end.

(** [lambda x: x.get('title', '').lower()] *)
Definition title_sort_key (x : json) : result json :=
  t <- py_get x "title" (JStr "") ;;
  s <- py_lower t ;;
  Ok (JStr s).

Definition get_movies_by_category (category : string) (limit offset : Z)
  : M (list json) :=
  movies <<- load_json MOVIES_FILE ;;
  lift (all_matching <-
          (if String.eqb category ALL_CATEGORY then
             ms <- py_getitem movies "movies" ;;
             py_values ms
           else
             ms <- py_getitem movies "movies" ;;
             vals <- py_values ms ;;
             filter_category category vals) ;;
        sorted <- list_sort title_sort_key false all_matching ;;
        Ok (py_slice sorted offset (offset + limit))).

Definition delete_movie (movie_id : Z) : M bool :=
  movies <<- load_json MOVIES_FILE ;;
  let movie_id_str := str_of_Z movie_id in
  ms <<- lift (py_getitem movies "movies") ;;
  present <<- lift (py_contains movie_id_str ms) ;;
  if present then
    movies' <<- lift (ms' <- py_delitem ms movie_id_str ;;
                      py_setitem movies "movies" ms') ;;
    _ <<- save_json MOVIES_FILE movies' ;;
    ret true
  else ret false.

Definition increment_download_count (movie_id : Z) : M unit :=
  movies <<- load_json MOVIES_FILE ;;
  let movie_id_str := str_of_Z movie_id in
  ms <<- lift (py_getitem movies "movies") ;;
  present <<- lift (py_contains movie_id_str ms) ;;
  if present then
    movies' <<- lift (m <- py_getitem ms movie_id_str ;;
                      c <- py_get m "download_count" (JInt 0) ;;
                      c' <- py_add1 c ;;
                      m' <- py_setitem m "download_count" c' ;;
                      ms' <- py_setitem ms movie_id_str m' ;;
                      py_setitem movies "movies" ms') ;;
    save_json MOVIES_FILE movies'
  else ret tt.

(** *** Channels *)

Definition add_channel (channel_id channel_name short_name now : string)
  : M bool :=
  channels <<- load_json CHANNELS_FILE ;;
  present <<- lift (py_contains channel_id channels) ;;
  if present then ret false
  else
    channels' <<- lift (py_setitem channels channel_id
                          (JDict [("channel_id", JStr channel_id);
                                  ("channel_name", JStr channel_name);
                                  ("short_name", JStr short_name);
                                  ("added_at", JStr now)])) ;;
    _ <<- save_json CHANNELS_FILE channels' ;;
    ret true.

Definition remove_channel (identifier : string) : M bool :=
  remove_keyed CHANNELS_FILE identifier.

Definition get_channel_info (channel_id : string) : M json :=
  channels <<- load_json CHANNELS_FILE ;;
  lift (py_get channels channel_id JNull).

Definition get_all_channels : M (list json) :=
  channels <<- load_json CHANNELS_FILE ;;
  lift (py_values channels).

(** *** Requests *)

Definition add_movie_request (user_id : Z) (movie_name now : string)
  : M json :=
  requests <<- load_json REQUESTS_FILE ;;
  request_id <<- lift (py_getitem requests "next_id") ;;
  requests <<- lift (rs <- py_getitem requests "requests" ;;
                     rs' <- py_setitem rs (py_str request_id)
                              (JDict [("request_id", request_id);
                                      ("user_id", JInt user_id);
                                      ("movie_name", JStr movie_name);
                                      ("status", JStr "pending");
                                      ("requested_at", JStr now)]) ;;
                     requests <- py_setitem requests "requests" rs' ;;
                     next <- py_getitem requests "next_id" ;;
                     next' <- py_add1 next ;;
                     py_setitem requests "next_id" next') ;;
  _ <<- save_json REQUESTS_FILE requests ;;
  ret request_id.

(** The loop of [get_pending_requests]: the pending requests, each with
    the user record under ["users"]. *)
Fixpoint pending_with_users (users : json) (vals : list json)
  : result (list json) :=
  match vals with
  | [] => Ok []
  | request_data :: rest =>
      status <- py_get request_data "status" JNull ;;
      if py_eq_str status "pending" then
        user_id <- py_getitem request_data "user_id" ;;
        user_info <- py_get users (py_str user_id) (JDict []) ;;
        request_data <- py_setitem request_data "users" user_info ;;
        tl <- pending_with_users users rest ;;
        Ok (request_data :: tl)
      else pending_with_users users rest
  end.

Definition get_pending_requests (limit offset : Z) : M (list json) :=
  requests <<- load_json REQUESTS_FILE ;;
  users <<- load_json USERS_FILE ;;
  lift (rs <- py_getitem requests "requests" ;;
        vals <- py_values rs ;;
        all_pending <- pending_with_users users vals ;;
        sorted <- list_sort (fun x => py_get x "request_id" (JInt 0)) true
                    all_pending ;;
        Ok (py_slice sorted offset (offset + limit))).

Fixpoint count_pending (vals : list json) (count : Z) : result Z :=
  match vals with
  | [] => Ok count
  | request_data :: rest =>
      status <- py_get request_data "status" JNull ;;
      count_pending rest
        (if py_eq_str status "pending" then count + 1 else count)
  end.

Definition get_total_pending_requests_count : M Z :=
  requests <<- load_json REQUESTS_FILE ;;
  lift (rs <- py_getitem requests "requests" ;;
        vals <- py_values rs ;;
        count_pending vals 0).

Definition update_request_status (request_id : Z) (status now : string)
  : M json :=
  requests <<- load_json REQUESTS_FILE ;;
  let request_id_str := str_of_Z request_id in
  rs <<- lift (py_getitem requests "requests") ;;
  present <<- lift (py_contains request_id_str rs) ;;
  if present then
    r <<- lift (r <- py_getitem rs request_id_str ;;
                r <- py_setitem r "status" (JStr status) ;;
                py_setitem r "updated_at" (JStr now)) ;;
    requests' <<- lift (rs' <- py_setitem rs request_id_str r ;;
                        py_setitem requests "requests" rs') ;;
    _ <<- save_json REQUESTS_FILE requests' ;;
    ret r
  else ret JNull.

(** *** Stats *)

(** The comprehension of [get_movies_by_uploader]. *)
Fixpoint filter_uploader (admin_id : Z) (vals : list json)
  : result (list json) :=
  match vals with
  | [] => Ok []
  | movie :: rest =>
      added_by <- py_get movie "added_by" JNull ;;
      tl <- filter_uploader admin_id rest ;;
      Ok (if py_eq_int added_by admin_id then movie :: tl else tl)
  end.

Definition get_movies_by_uploader (admin_id : Z) (limit : Z)
  : M (list json) :=
  movies <<- load_json MOVIES_FILE ;;
  lift (vals <- py_values movies ;;
        admin_movies <- filter_uploader admin_id vals ;;
        sorted <- list_sort (fun x => py_get x "added_at" (JStr "")) true
                    admin_movies ;;
        Ok (py_slice sorted 0 limit)).

(** *** The interface as a whole *)

Inductive call : Type :=
| InitializeDatabase
| UserExists (user_id : Z)
| AddUserIfNotExists (user_id : Z) (first_name : string)
    (username : option string) (now : string)
| GetUserRole (user_id : Z)
| AddAdmin (admin_id : Z) (short_name first_name : string)
    (username : option string) (now : string)
| GetAdminInfo (admin_id : Z)
| RemoveAdmin (identifier : string)
| GetAllAdmins
| AddMovie (movie_data : dict) (now : string)
| GetMovieDetails (movie_id : Z)
| SearchMovies (query : string) (limit : Z)
| GetMoviesByFirstLetter (letter : string) (limit : Z)
| GetMoviesByCategory (category : string) (limit offset : Z)
| DeleteMovie (movie_id : Z)
| IncrementDownloadCount (movie_id : Z)
| AddChannel (channel_id channel_name short_name now : string)
| RemoveChannel (identifier : string)
| GetChannelInfo (channel_id : string)
| GetAllChannels
| AddMovieRequest (user_id : Z) (movie_name now : string)
| GetPendingRequests (limit offset : Z)
| GetTotalPendingRequestsCount
| UpdateRequestStatus (request_id : Z) (status now : string)
| GetMoviesByUploader (admin_id : Z) (limit : Z).

(** The files after a call, whether it returned or raised. *)
Definition after (c : call) (st : store) : store :=
  match c with
  | InitializeDatabase => snd (initialize_database st)
  | UserExists i => snd (user_exists i st)
  | AddUserIfNotExists i f u t => snd (add_user_if_not_exists i f u t st)
  | GetUserRole i => snd (get_user_role i st)
  | AddAdmin i s f u t => snd (add_admin i s f u t st)
  | GetAdminInfo i => snd (get_admin_info i st)
  | RemoveAdmin s => snd (remove_admin s st)
  | GetAllAdmins => snd (get_all_admins st)
  | AddMovie d t => snd (add_movie d t st)
  | GetMovieDetails i => snd (get_movie_details i st)
  | SearchMovies q l => snd (search_movies q l st)
  | GetMoviesByFirstLetter x l => snd (get_movies_by_first_letter x l st)
  | GetMoviesByCategory x l o => snd (get_movies_by_category x l o st)
  | DeleteMovie i => snd (delete_movie i st)
  | IncrementDownloadCount i => snd (increment_download_count i st)
  | AddChannel i n s t => snd (add_channel i n s t st)
  | RemoveChannel s => snd (remove_channel s st)
  | GetChannelInfo i => snd (get_channel_info i st)
  | GetAllChannels => snd (get_all_channels st)
  | AddMovieRequest i n t => snd (add_movie_request i n t st)
  | GetPendingRequests l o => snd (get_pending_requests l o st)
  | GetTotalPendingRequestsCount => snd (get_total_pending_requests_count st)
  | UpdateRequestStatus i s t => snd (update_request_status i s t st)
  | GetMoviesByUploader i l => snd (get_movies_by_uploader i l st)
  end.

(** ** Notions the properties are stated with *)

(** What [load_json] makes of a file. *)
Definition loaded (f : file) : json :=
  match f with
  | Doc j => j
  | Absent | Garbled => JDict []
  end.

(** The store with no file at all. *)
Definition no_files : store :=
  mkStore Absent Absent Absent Absent Absent Absent.

(** A stable sort by insertion, on a strict order given as a test. *)
Fixpoint insert_sorted {A : Type} (ltb : A -> A -> bool) (x : A)
  (l : list A) : list A :=
  match l with
  | [] => [x]
  | y :: l' => if ltb y x then y :: insert_sorted ltb x l' else x :: y :: l'
  end.

Fixpoint stable_sort {A : Type} (ltb : A -> A -> bool) (l : list A)
  : list A :=
  match l with
  | [] => []
  | x :: l' => insert_sorted ltb x (stable_sort ltb l')
  end.

(** *** Movies *)

(** A movie record as the category listing needs it: a dict whose title,
    if any, is a string and whose categories, if any, are a list. *)
Definition wf_movie (m : json) : bool :=
  match m with
  | JDict d =>
      match dict_get "title" d with
      | None | Some (JStr _) => true
      | _ => false
      end
      && match dict_get "categories" d with
         | None | Some (JList _) => true
         | _ => false
         end
  | _ => false
  end.

(** The lowercase title of a movie, the empty title when it has none. *)
Definition lower_title (m : json) : string :=
  match m with
  | JDict d =>
      match dict_get "title" d with
      | Some (JStr s) => lower s
      | _ => lower ""
      end
  | _ => lower ""
  end.

(** [category] is an element of the movie's category tags. *)
Definition has_category (category : string) (m : json) : bool :=
  match m with
  | JDict d =>
      match dict_get "categories" d with
      | Some (JList cs) => existsb (fun c => py_eq_str c category) cs
      | _ => false
      end
  | _ => false
  end.

(** The full matching set of a category, in collection order. *)
Definition matching (category : string) (ms : dict) : list json :=
  if String.eqb category ALL_CATEGORY then dict_values ms
  else filter (has_category category) (dict_values ms).

(** The full matching set sorted by lowercase title. *)
Definition sorted_matches (category : string) (ms : dict) : list json :=
  stable_sort (fun a b => String.ltb (lower_title a) (lower_title b))
    (matching category ms).

(** A caller that pages through a category: it asks for the pages at
    offsets [offset], [offset + limit], ... until one comes back empty and
    concatenates them.  [None] when the fuel runs out or a call raises. *)
Fixpoint all_pages (fuel : nat) (category : string) (limit offset : Z)
  (st : store) : option (list json) :=
  match fuel with
  | O => None
  | S fuel' =>
      match fst (get_movies_by_category category limit offset st) with
      | Ok [] => Some []
      | Ok page =>
          option_map (app page)
            (all_pages fuel' category limit (offset + limit) st)
      | Raise _ => None
      end
  end.

(** The record [add_movie] stores: the data with the three stamps. *)
Definition stamped (movie_data : dict) (movie_id : Z) (now : string) : dict :=
  dict_set "download_count" (JInt 0)
    (dict_set "added_at" (JStr now)
       (dict_set "movie_id" (JInt movie_id) movie_data)).

(** *** Requests *)

Definition is_pending (r : json) : bool :=
  match r with
  | JDict d =>
      match dict_get "status" d with
      | Some s => py_eq_str s "pending"
      | None => false
      end
  | _ => false
  end.

Definition request_id_of (r : json) : Z :=
  match r with
  | JDict d =>
      match dict_get "request_id" d with
      | Some (JInt n) => n
      | _ => 0
      end
  | _ => 0
  end.

(** The user record a request refers to, the empty record when the user
    does not resolve. *)
Definition user_record (users : dict) (r : json) : json :=
  match r with
  | JDict d =>
      match dict_get "user_id" d with
      | Some user_id =>
          match dict_get (py_str user_id) users with
          | Some u => u
          | None => JDict []
          end
      | None => JDict []
      end
  | _ => JDict []
  end.

(** The request with its user record attached. *)
Definition with_user (users : dict) (r : json) : json :=
  match r with
  | JDict d => JDict (dict_set "users" (user_record users r) d)
  | _ => r
  end.

(** A request record: a dict with an integer id and a user id. *)
Definition wf_request (r : json) : bool :=
  match r with
  | JDict d =>
      match dict_get "request_id" d, dict_get "user_id" d with
      | Some (JInt _), Some _ => true
      | _, _ => false
      end
  | _ => false
  end.

(** A requests collection: every record is keyed by its own id, and no key
    is repeated. *)
Definition wf_requests (rs : dict) : bool :=
  distinct_keys (dict_keys rs)
  && forallb (fun kr => wf_request (snd kr)
                        && String.eqb (fst kr)
                             (str_of_Z (request_id_of (snd kr)))) rs.

(** The pending requests with their users, newest first. *)
Definition newest_pending (users rs : dict) : list json :=
  rev (stable_sort (fun a b => request_id_of a <? request_id_of b)
         (rev (map (with_user users) (filter is_pending (dict_values rs))))).

(** *** Counters *)

(** The [next_id] counter of an envelope document. *)
Definition next_id_of (f : file) : option Z :=
  match f with
  | Doc (JDict d) =>
      match dict_get "next_id" d with
      | Some (JInt n) => Some n
      | _ => None
      end
  | _ => None
  end.

(** The records of an envelope document, under [items_key]. *)
Definition items_of (items_key : string) (f : file) : dict :=
  match f with
  | Doc (JDict d) =>
      match dict_get items_key d with
      | Some (JDict items) => items
      | _ => []
      end
  | _ => []
  end.

(** Every numeric key of [items] is below [n]. *)
Definition keys_below (n : Z) (items : dict) : bool :=
  forallb (fun k => match numeric_key k with
                    | Some m => m <? n
                    | None => true
                    end) (dict_keys items).

(** The file is an envelope whose counter exceeds every numeric key. *)
Definition counter_ok (items_key : string) (f : file) : bool :=
  match f with
  | Doc (JDict d) =>
      match dict_get "next_id" d, dict_get items_key d with
      | Some (JInt n), Some (JDict items) => keys_below n items
      | _, _ => false
      end
  | _ => false
  end.

(** A file [f'] that succeeds [f] keeps a counter above its keys and
    does not lower it. *)
Definition counter_step (items_key : string) (f f' : file) : Prop :=
  counter_ok items_key f' = true
  /\ (forall n, next_id_of f = Some n ->
                exists n', next_id_of f' = Some n' /\ n <= n').

(** *** Admins and channels *)

(** The record's short name is [identifier]. *)
Definition short_name_is (identifier : string) (data : json) : bool :=
  match data with
  | JDict d =>
      match dict_get "short_name" d with
      | Some sn => py_eq_str sn identifier
      | None => false
      end
  | _ => false
  end.

(** A collection of admins or channels: every record is a dict and no key
    is repeated. *)
Definition wf_keyed (coll : dict) : bool :=
  distinct_keys (dict_keys coll)
  && forallb (fun v => match v with JDict _ => true | _ => false end)
       (dict_values coll).


(** *** Sort keys *)

(** [a < b] on two keys that compare. *)
Definition key_ltb (a b : json) : bool :=
  match py_lt a b with
  | Ok b => b
  | Raise _ => false
  end.

(** The same on elements paired with their keys. *)
Definition pair_ltb (a b : json * json) : bool := key_ltb (fst a) (fst b).

Definition is_str (j : json) : bool :=
  match j with
  | JStr _ => true
  | _ => false
  end.

Definition is_int (j : json) : bool :=
  match j with
  | JInt _ => true
  | _ => false
  end.

(** *** Shapes *)

Definition is_dict (j : json) : bool :=
  match j with
  | JDict _ => true
  | _ => false
  end.

(** *** Records the store writes *)




(** The record [add_movie_request] stores. *)
Definition request_entry (request_id user_id : Z) (movie_name now : string)
  : json :=
  JDict [("request_id", JInt request_id);
         ("user_id", JInt user_id);
         ("movie_name", JStr movie_name);
         ("status", JStr "pending");
         ("requested_at", JStr now)].

(** What [initialize_database] makes of one file. *)
Definition initialized (p : path) (f : file) : file :=
  match f with
  | Absent => Doc (default_document p)
  | _ => f
  end.

(** *** Titles *)

(** A movie whose title, if any, is a string. *)
Definition has_text_title (m : json) : bool :=
  match m with
  | JDict d =>
      match dict_get "title" d with
      | None | Some (JStr _) => true
      | _ => false
      end
  | _ => false
  end.

(** The lowercase title contains the lowercase query. *)
Definition title_matches (query : string) (m : json) : bool :=
  str_contains (lower query) (lower_title m).

(** The title is not empty and its first character, in upper case, is the
    letter in upper case. *)
Definition starts_with_letter (letter : string) (m : json) : bool :=
  match m with
  | JDict d =>
      match dict_get "title" d with
      | Some (JStr s) =>
          negb (String.eqb s EmptyString)
          && String.eqb (upper (first_char s)) (upper letter)
      | _ => false
      end
  | _ => false
  end.

(** The number of results a scan with [limit] stops at: a scan that has
    appended a result stops only after it. *)
Definition scan_bound (limit : Z) : nat := Z.to_nat (Z.max 1 limit).

(** *** Documents the properties are run on *)

Definition demo_movies : dict :=
  [("1", JDict [("title", JStr "Zeta");
                ("categories", JList [JStr "Action"]);
                ("added_by", JInt 7); ("movie_id", JInt 1);
                ("added_at", JStr "2024-05-01T10:00:00");
                ("download_count", JInt 0)]);
   ("2", JDict [("title", JStr "Alpha");
                ("categories", JList [JStr "Action"; JStr "Comedy"]);
                ("added_by", JInt 7); ("movie_id", JInt 2);
                ("added_at", JStr "2024-05-02T10:00:00");
                ("download_count", JInt 3)]);
   ("3", JDict [("title", JStr "Mango");
                ("categories", JList [JStr "Action"]);
                ("added_by", JInt 9); ("movie_id", JInt 3);
                ("added_at", JStr "2024-05-03T10:00:00");
                ("download_count", JInt 0)])].

Definition demo_movies_doc : dict :=
  [("next_id", JInt 4); ("movies", JDict demo_movies)].

Definition demo_users : dict :=
  [("42", JDict [("user_id", JInt 42); ("first_name", JStr "Bob");
                 ("username", JNull);
                 ("joined_at", JStr "2024-04-01T09:00:00");
                 ("is_active", JBool true)])].

Definition demo_requests : dict :=
  [("1", JDict [("request_id", JInt 1); ("user_id", JInt 42);
                ("movie_name", JStr "Inception");
                ("status", JStr "pending");
                ("requested_at", JStr "2024-05-04T10:00:00")]);
   ("2", JDict [("request_id", JInt 2); ("user_id", JInt 42);
                ("movie_name", JStr "Tenet");
                ("status", JStr "fulfilled");
                ("requested_at", JStr "2024-05-05T10:00:00")]);
   ("3", JDict [("request_id", JInt 3); ("user_id", JInt 7);
                ("movie_name", JStr "Dune");
                ("status", JStr "pending");
                ("requested_at", JStr "2024-05-06T10:00:00")])].

Definition demo_requests_doc : dict :=
  [("next_id", JInt 4); ("requests", JDict demo_requests)].

(** Two admins share the short name ["sam"]. *)
Definition demo_admins : dict :=
  [("11", JDict [("user_id", JInt 11); ("short_name", JStr "kim");
                 ("first_name", JStr "Kim"); ("username", JNull);
                 ("added_at", JStr "2024-03-01T08:00:00")]);
   ("12", JDict [("user_id", JInt 12); ("short_name", JStr "sam");
                 ("first_name", JStr "Sam"); ("username", JNull);
                 ("added_at", JStr "2024-03-02T08:00:00")]);
   ("13", JDict [("user_id", JInt 13); ("short_name", JStr "sam");
                 ("first_name", JStr "Samir"); ("username", JNull);
                 ("added_at", JStr "2024-03-03T08:00:00")])].

Definition demo_channels : dict :=
  [("@films", JDict [("channel_id", JStr "@films");
                     ("channel_name", JStr "Films");
                     ("short_name", JStr "films");
                     ("added_at", JStr "2024-03-04T08:00:00")])].

Definition demo_store : store :=
  mkStore (Doc (JDict demo_users)) (Doc (JDict demo_admins))
    (Doc (JDict demo_movies_doc)) (Doc (JDict demo_channels))
    (Doc (JDict demo_requests_doc)) (Doc (JDict [])).

(** * Properties *)

Arguments str_of_Z : simpl never.

(** ** Dictionaries *)

Lemma dict_get_set_same (k : string) (v : json) (d : dict) :
  dict_get k (dict_set k v d) = Some v.
Proof.
  induction d as [|[k' v'] d IH]; simpl.
  - now rewrite String.eqb_refl.
  - destruct (String.eqb k k') eqn:E; simpl; rewrite E; auto.
Qed.

Lemma dict_get_set_other (k k' : string) (v : json) (d : dict) :
  k <> k' -> dict_get k (dict_set k' v d) = dict_get k d.
Proof.
  intros Hne. induction d as [|[k0 v0] d IH]; simpl.
  - apply String.eqb_neq in Hne. now rewrite Hne.
  - destruct (String.eqb k' k0) eqn:E; simpl.
    + apply String.eqb_eq in E. subst k0.
      apply String.eqb_neq in Hne. now rewrite Hne.
    + now rewrite IH.
Qed.

Lemma dict_mem_set (k k' : string) (v : json) (d : dict) :
  dict_mem k (dict_set k' v d) = String.eqb k k' || dict_mem k d.
Proof.
  unfold dict_mem. destruct (String.eqb k k') eqn:E.
  - apply String.eqb_eq in E. subst. now rewrite dict_get_set_same.
  - apply String.eqb_neq in E. now rewrite dict_get_set_other.
Qed.

Lemma dict_mem_keys (k : string) (d : dict) :
  dict_mem k d = existsb (String.eqb k) (dict_keys d).
Proof.
  unfold dict_mem. induction d as [|[k' v'] d IH]; simpl; auto.
  destruct (String.eqb k k'); auto.
Qed.

Lemma dict_keys_set_present (k : string) (v : json) (d : dict) :
  dict_mem k d = true -> dict_keys (dict_set k v d) = dict_keys d.
Proof.
  unfold dict_mem. induction d as [|[k' v'] d IH]; simpl.
  - discriminate.
  - destruct (String.eqb k k'); simpl; auto.
    intros H. now rewrite IH.
Qed.

Lemma dict_keys_set_absent (k : string) (v : json) (d : dict) :
  dict_mem k d = false -> dict_keys (dict_set k v d) = dict_keys d ++ [k].
Proof.
  unfold dict_mem. induction d as [|[k' v'] d IH]; simpl; auto.
  destruct (String.eqb k k'); simpl; try discriminate.
  intros H. now rewrite IH.
Qed.

Lemma dict_keys_del_incl (k : string) (d : dict) :
  incl (dict_keys (dict_del k d)) (dict_keys d).
Proof.
  induction d as [|[k' v'] d IH]; simpl.
  - apply incl_refl.
  - destruct (String.eqb k k'); simpl.
    + apply incl_tl, incl_refl.
    + apply incl_cons; [now left | now apply incl_tl].
Qed.

(** Deleting the key of a record that no earlier record shares leaves the
    records before and after it. *)
Lemma dict_del_split (k : string) (v : json) (l1 l2 : dict) :
  dict_mem k l1 = false -> dict_del k (l1 ++ (k, v) :: l2) = l1 ++ l2.
Proof.
  unfold dict_mem. induction l1 as [|[k' v'] l1 IH]; simpl.
  - now rewrite String.eqb_refl.
  - destruct (String.eqb k k'); try discriminate.
    intros H. now rewrite IH.
Qed.

Lemma dict_mem_app (k : string) (l1 l2 : dict) :
  dict_mem k (l1 ++ l2) = dict_mem k l1 || dict_mem k l2.
Proof.
  rewrite !dict_mem_keys. unfold dict_keys. now rewrite map_app, existsb_app.
Qed.

Lemma distinct_keys_app_cons (l1 l2 : dict) (k : string) (v : json) :
  distinct_keys (dict_keys (l1 ++ (k, v) :: l2)) = true ->
  dict_mem k l1 = false.
Proof.
  rewrite dict_mem_keys.
  induction l1 as [|[k' v'] l1 IH]; simpl; auto.
  intros H. apply andb_true_iff in H. destruct H as [H1 H2].
  rewrite (IH H2), orb_false_r.
  apply negb_true_iff in H1.
  unfold dict_keys in H1. rewrite map_app, existsb_app in H1. simpl in H1.
  apply orb_false_iff in H1. destruct H1 as [_ H1].
  apply orb_false_iff in H1. destruct H1 as [H1 _].
  now rewrite String.eqb_sym.
Qed.

(** ** Decimal numerals *)

Lemma numeric_key_str_of_Z (n : Z) : numeric_key (str_of_Z n) = Some n.
Proof.
  unfold numeric_key, str_of_Z.
  rewrite NilZero.isi.
  - simpl. now rewrite DecimalZ.of_to.
  - destruct n; simpl; try discriminate.
    intros H. injection H. apply DecimalPos.Unsigned.to_uint_nonnil.
  - destruct n; simpl; try discriminate.
    intros H. injection H. apply DecimalPos.Unsigned.to_uint_nonnil.
Qed.

Lemma str_of_Z_inj (n m : Z) : str_of_Z n = str_of_Z m -> n = m.
Proof.
  intros H. apply (f_equal numeric_key) in H.
  rewrite !numeric_key_str_of_Z in H. congruence.
Qed.

(** ** Running a store function *)

Ltac run_store :=
  unfold bind, lift, ret, load_json, save_json; simpl.

(** ** Queries and the files *)

(** C10. Every query leaves every file of the data directory as it was,
    whether it returns or raises; in particular the requests document is
    the same after [get_pending_requests], which attaches the user records
    to the returned list only. *)
Theorem queries_leave_files_unchanged (st : store) :
  (forall user_id, snd (user_exists user_id st) = st)
  /\ (forall user_id, snd (get_user_role user_id st) = st)
  /\ (forall admin_id, snd (get_admin_info admin_id st) = st)
  /\ snd (get_all_admins st) = st
  /\ (forall movie_id, snd (get_movie_details movie_id st) = st)
  /\ (forall query limit, snd (search_movies query limit st) = st)
  /\ (forall letter limit,
        snd (get_movies_by_first_letter letter limit st) = st)
  /\ (forall category limit offset,
        snd (get_movies_by_category category limit offset st) = st)
  /\ (forall channel_id, snd (get_channel_info channel_id st) = st)
  /\ snd (get_all_channels st) = st
  /\ (forall limit offset, snd (get_pending_requests limit offset st) = st)
  /\ snd (get_total_pending_requests_count st) = st
  /\ (forall limit offset,
        requests_file (snd (get_pending_requests limit offset st))
        = requests_file st).
Proof.
  repeat split; intros; try reflexivity.
  unfold get_user_role.
  destruct (user_id =? OWNER_ID); [reflexivity|].
  run_store.
  match goal with
  | |- context [py_contains ?k ?j] => destruct (py_contains k j) as [[|]|e]
  end; reflexivity.
Qed.

(** ** Missing documents *)

(** The queries on the flat collections return their empty result when the
    document is missing or does not decode. *)
Lemma flat_queries_on_missing_document (st : store) :
  (users_file st = Absent \/ users_file st = Garbled ->
   forall user_id, fst (user_exists user_id st) = Ok false)
  /\ (admins_file st = Absent \/ admins_file st = Garbled ->
      (forall admin_id, fst (get_admin_info admin_id st) = Ok JNull)
      /\ fst (get_all_admins st) = Ok [])
  /\ (channels_file st = Absent \/ channels_file st = Garbled ->
      (forall channel_id, fst (get_channel_info channel_id st) = Ok JNull)
      /\ fst (get_all_channels st) = Ok []).
Proof.
  repeat split; intros;
    unfold user_exists, get_admin_info, get_all_admins, get_channel_info,
      get_all_channels; run_store;
    match goal with H : _ \/ _ |- _ => destruct H as [H|H]; rewrite H end;
    reflexivity.
Qed.

(** C1 (the code departs from it). With the movies and the requests
    documents missing, or the movies document not decodable, [load_json]
    yields the empty dict, which has no ["movies"] and no ["requests"]
    entry: every query on these two collections raises [KeyError] instead
    of returning its empty result. *)
Theorem queries_raise_on_missing_document :
  (forall movie_id, fst (get_movie_details movie_id no_files) = Raise KeyError)
  /\ (forall query limit,
        fst (search_movies query limit no_files) = Raise KeyError)
  /\ (forall letter limit,
        fst (get_movies_by_first_letter letter limit no_files)
        = Raise KeyError)
  /\ (forall category limit offset,
        fst (get_movies_by_category category limit offset no_files)
        = Raise KeyError)
  /\ (forall limit offset,
        fst (get_pending_requests limit offset no_files) = Raise KeyError)
  /\ fst (get_total_pending_requests_count no_files) = Raise KeyError
  /\ (forall movie_id,
        fst (get_movie_details movie_id (write MOVIES_FILE Garbled demo_store))
        = Raise KeyError).
Proof.
  repeat split; intros; try reflexivity.
  unfold get_movies_by_category. run_store.
  destruct (String.eqb category ALL_CATEGORY); reflexivity.
Qed.

(** ** Movies by uploader *)

Lemma filter_uploader_non_dict (admin_id : Z) (v : json) (vals : list json) :
  In v vals -> is_dict v = false ->
  filter_uploader admin_id vals = Raise AttributeError.
Proof.
  intros Hin Hv. induction vals as [|m rest IH]; [easy|].
  destruct (is_dict m) eqn:Hm.
  - destruct Hin as [->|Hin]; [congruence|].
    destruct m; try discriminate. simpl.
    rewrite (IH Hin). now destruct (dict_get "added_by" d).
  - destruct m; try discriminate; reflexivity.
Qed.

Lemma dict_get_In_values (k : string) (v : json) (d : dict) :
  dict_get k d = Some v -> In v (dict_values d).
Proof.
  induction d as [|[k' v'] d IH]; simpl; [discriminate|].
  destruct (String.eqb k k').
  - intros H. injection H as ->. now left.
  - intros H. right. now apply IH.
Qed.

(** On every movies document that carries an integer counter, whatever its
    movies, the listing by uploader raises. *)
Lemma get_movies_by_uploader_envelope_raises (st : store) (d : dict) (n : Z)
  (admin_id limit : Z) :
  movies_file st = Doc (JDict d) ->
  dict_get "next_id" d = Some (JInt n) ->
  fst (get_movies_by_uploader admin_id limit st) = Raise AttributeError.
Proof.
  intros Hdoc Hn. unfold get_movies_by_uploader. run_store.
  rewrite Hdoc. simpl.
  rewrite (filter_uploader_non_dict admin_id (JInt n)); auto.
  eapply dict_get_In_values; eauto.
Qed.

(** C2 (the code departs from it). [get_movies_by_uploader] runs over the
    values of the movies document itself, the counter and the mapping of
    movies, and not over the movies: on the demo store, where admin 7 has
    uploaded the movies 1 and 2, it raises [AttributeError] on the
    counter. *)
Theorem get_movies_by_uploader_raises :
  fst (get_movie_details 1 demo_store)
  = Ok (JDict [("title", JStr "Zeta");
               ("categories", JList [JStr "Action"]);
               ("added_by", JInt 7); ("movie_id", JInt 1);
               ("added_at", JStr "2024-05-01T10:00:00");
               ("download_count", JInt 0)])
  /\ fst (get_movies_by_uploader 7 30 demo_store) = Raise AttributeError.
Proof. split; reflexivity. Qed.

(** ** Roles *)

(** C8. The owner identity resolves to ["owner"] whatever the admins
    collection holds; any other identity resolves to ["admin"] when it is a
    key of the admins collection and to ["user"] otherwise. *)
Theorem get_user_role_precedence (st : store) (admins : dict) (user_id : Z) :
  loaded (admins_file st) = JDict admins ->
  get_user_role user_id st
  = (Ok (if user_id =? OWNER_ID then "owner"
         else if dict_mem (str_of_Z user_id) admins then "admin"
         else "user"), st).
Proof.
  intros Hadmins. unfold get_user_role.
  destruct (user_id =? OWNER_ID); [reflexivity|].
  run_store. fold (loaded (admins_file st)). rewrite Hadmins. simpl.
  now destruct (dict_mem (str_of_Z user_id) admins).
Qed.

(** ** Adding a movie *)

(** What [add_movie] does on an envelope with an integer counter. *)
Lemma add_movie_run (st : store) (d ms : dict) (n : Z) (movie_data : dict)
  (now : string) :
  movies_file st = Doc (JDict d) ->
  dict_get "next_id" d = Some (JInt n) ->
  dict_get "movies" d = Some (JDict ms) ->
  add_movie movie_data now st
  = (Ok (JInt n),
     write MOVIES_FILE
       (Doc (JDict
               (dict_set "next_id" (JInt (n + 1))
                  (dict_set "movies"
                     (JDict (dict_set (str_of_Z n)
                               (JDict (stamped movie_data n now)) ms))
                     d)))) st).
Proof.
  intros Hdoc Hn Hms. unfold add_movie. run_store.
  rewrite Hdoc. simpl. rewrite Hn. simpl. rewrite Hms. simpl.
  rewrite dict_get_set_other by discriminate. rewrite Hn. reflexivity.
Qed.

(** C7. On a movies document with its counter and its movies,
    [add_movie data] returns the counter as the id and [get_movie_details]
    of that id then returns the stamped record: the id, the timestamp and
    a zero download count under their three keys, and under every other
    key what [data] has there. *)
Theorem add_movie_then_get_movie (st : store) (d ms : dict) (n : Z)
  (movie_data : dict) (now : string) :
  movies_file st = Doc (JDict d) ->
  dict_get "next_id" d = Some (JInt n) ->
  dict_get "movies" d = Some (JDict ms) ->
  fst (add_movie movie_data now st) = Ok (JInt n)
  /\ fst (get_movie_details n (snd (add_movie movie_data now st)))
     = Ok (JDict (stamped movie_data n now))
  /\ dict_get "movie_id" (stamped movie_data n now) = Some (JInt n)
  /\ dict_get "added_at" (stamped movie_data n now) = Some (JStr now)
  /\ dict_get "download_count" (stamped movie_data n now) = Some (JInt 0)
  /\ (forall k, k <> "movie_id" -> k <> "added_at" ->
                k <> "download_count" ->
                dict_get k (stamped movie_data n now) = dict_get k movie_data).
Proof.
  intros Hdoc Hn Hms.
  rewrite (add_movie_run st d ms n movie_data now Hdoc Hn Hms).
  unfold stamped. repeat split.
  - unfold get_movie_details. run_store.
    rewrite dict_get_set_other by discriminate.
    rewrite dict_get_set_same. simpl.
    now rewrite dict_get_set_same.
  - rewrite !dict_get_set_other by discriminate. apply dict_get_set_same.
  - rewrite dict_get_set_other by discriminate. apply dict_get_set_same.
  - apply dict_get_set_same.
  - intros k H1 H2 H3. now rewrite !dict_get_set_other.
Qed.

(** ** Removing an admin or a channel *)

Lemma find_short_name_none (identifier : string) (items : dict) :
  forallb is_dict (dict_values items) = true ->
  forallb (fun kv => negb (short_name_is identifier (snd kv))) items = true ->
  find_short_name identifier items = Ok None.
Proof.
  induction items as [|[k v] items IH]; simpl; [reflexivity|].
  intros Hd Hs.
  apply andb_true_iff in Hd. destruct Hd as [Hv Hd].
  apply andb_true_iff in Hs. destruct Hs as [Hn Hs].
  destruct v; try discriminate. simpl in *.
  destruct (dict_get "short_name" d) as [sn|]; simpl.
  - apply negb_true_iff in Hn. rewrite Hn. auto.
  - auto.
Qed.

Lemma find_short_name_first (identifier k : string) (v : json)
  (l1 l2 : dict) :
  forallb is_dict (dict_values l1) = true ->
  forallb (fun kv => negb (short_name_is identifier (snd kv))) l1 = true ->
  short_name_is identifier v = true ->
  find_short_name identifier (l1 ++ (k, v) :: l2) = Ok (Some k).
Proof.
  intros Hd Hs Hv.
  induction l1 as [|[k1 v1] l1 IH]; simpl.
  - destruct v; try discriminate. simpl in *.
    destruct (dict_get "short_name" d) as [sn|]; [|discriminate].
    simpl. now rewrite Hv.
  - simpl in Hd, Hs.
    apply andb_true_iff in Hd. destruct Hd as [Hv1 Hd].
    apply andb_true_iff in Hs. destruct Hs as [Hn Hs].
    destruct v1; try discriminate. simpl in *.
    destruct (dict_get "short_name" d) as [sn|]; simpl.
    + apply negb_true_iff in Hn. rewrite Hn. auto.
    + auto.
Qed.

Lemma dict_mem_mid (k : string) (v : json) (l1 l2 : dict) :
  dict_mem k (l1 ++ (k, v) :: l2) = true.
Proof.
  rewrite dict_mem_app. unfold dict_mem at 2. simpl.
  rewrite String.eqb_refl. apply orb_true_r.
Qed.

(** C9. [remove_admin] and [remove_channel] on a collection of records
    with distinct keys.  (1) When the identifier is a key, the record under
    it is removed and the others stay, in order.  (2) Otherwise the first
    record in collection order whose short name is the identifier is
    removed, and only that one, also when a later record has the same short
    name.  (3) When neither exists the call returns false and writes
    nothing. *)
Theorem remove_by_identity_or_short_name (st : store) (p : path)
  (remove : string -> M bool) (coll : dict) (identifier : string) :
  (p = ADMINS_FILE /\ remove = remove_admin)
  \/ (p = CHANNELS_FILE /\ remove = remove_channel) ->
  loaded (read p st) = JDict coll ->
  wf_keyed coll = true ->
  (forall l1 v l2,
      coll = l1 ++ (identifier, v) :: l2 ->
      remove identifier st
      = (Ok true, write p (Doc (JDict (l1 ++ l2))) st))
  /\ (forall l1 k v l2,
         dict_mem identifier coll = false ->
         coll = l1 ++ (k, v) :: l2 ->
         forallb (fun kv => negb (short_name_is identifier (snd kv))) l1
         = true ->
         short_name_is identifier v = true ->
         remove identifier st
         = (Ok true, write p (Doc (JDict (l1 ++ l2))) st))
  /\ (dict_mem identifier coll = false ->
      forallb (fun kv => negb (short_name_is identifier (snd kv))) coll
      = true ->
      remove identifier st = (Ok false, st)).
Proof.
  intros Hwhich Hload Hwf.
  assert (Hrem : remove = remove_keyed p)
    by (destruct Hwhich as [[-> ->]|[-> ->]]; reflexivity).
  subst remove. clear Hwhich.
  apply andb_true_iff in Hwf. destruct Hwf as [Hkeys Hdicts].
  fold is_dict in Hdicts.
  unfold remove_keyed, load_json. unfold loaded in Hload.
  repeat split.
  - intros l1 v l2 ->.
    unfold bind, lift, ret, save_json. rewrite Hload. simpl.
    rewrite !dict_mem_mid. simpl.
    rewrite dict_del_split; [reflexivity|].
    eapply distinct_keys_app_cons; eauto.
  - intros l1 k v l2 Hmem -> Hnone Hv.
    unfold bind, lift, ret, save_json. rewrite Hload. simpl.
    rewrite Hmem. simpl.
    unfold dict_values in Hdicts. rewrite map_app, forallb_app in Hdicts.
    apply andb_true_iff in Hdicts. destruct Hdicts as [Hd1 _].
    rewrite find_short_name_first; auto. simpl.
    rewrite dict_mem_mid.
    rewrite dict_del_split; [reflexivity|].
    eapply distinct_keys_app_cons; eauto.
  - intros Hmem Hnone.
    unfold bind, lift, ret, save_json. rewrite Hload. simpl.
    rewrite Hmem. simpl.
    rewrite find_short_name_none; auto.
Qed.

(** ** Slices *)

Lemma py_slice_page {A : Type} (l : list A) (limit offset : nat) :
  py_slice l (Z.of_nat offset) (Z.of_nat offset + Z.of_nat limit)
  = firstn limit (skipn offset l).
Proof.
  unfold py_slice.
  destruct (Z.ltb_spec (Z.of_nat offset) 0) as [H|_]; [lia|].
  destruct (Z.ltb_spec (Z.of_nat offset + Z.of_nat limit) 0) as [H|_]; [lia|].
  destruct (Nat.le_gt_cases (List.length l) offset) as [Hle|Hgt].
  - rewrite Z.min_r by lia. rewrite Z.min_r by lia.
    rewrite Z.sub_diag. simpl.
    rewrite (skipn_all2 l Hle). now rewrite firstn_nil.
  - rewrite (Z.min_l (Z.of_nat offset)) by lia.
    rewrite Nat2Z.id.
    destruct (Nat.le_gt_cases (List.length l) (offset + limit)) as [Hle'|Hgt'].
    + rewrite Z.min_r by lia.
      rewrite !firstn_all2; auto; rewrite length_skipn; lia.
    + rewrite Z.min_l by lia. f_equal. lia.
Qed.

(** ** The order on strings *)

Lemma string_compare_lt_trans (a b c : string) :
  String.compare a b = Lt -> String.compare b c = Lt ->
  String.compare a c = Lt.
Proof.
  revert b c. induction a as [|x a IH]; intros [|y b] [|z c]; simpl;
    try congruence.
  unfold Ascii.compare.
  destruct (N.compare_spec (N_of_ascii x) (N_of_ascii y)) as [E1|L1|G1];
    try discriminate;
    destruct (N.compare_spec (N_of_ascii y) (N_of_ascii z)) as [E2|L2|G2];
    try discriminate; intros H1 H2.
  - rewrite <- E2, E1, N.compare_refl. eauto.
  - rewrite E1. now apply N.compare_lt_iff in L2 as ->.
  - rewrite <- E2. now apply N.compare_lt_iff in L1 as ->.
  - assert (L : (N_of_ascii x < N_of_ascii z)%N) by lia.
    now apply N.compare_lt_iff in L as ->.
Qed.

Lemma string_ltb_asym (a b : string) :
  String.ltb a b = true -> String.ltb b a = false.
Proof.
  unfold String.ltb. rewrite (String.compare_antisym b a).
  now destruct (String.compare a b).
Qed.

Lemma string_not_ltb_leb (a b : string) :
  String.ltb b a = false -> String.leb a b = true.
Proof.
  unfold String.ltb, String.leb. rewrite (String.compare_antisym b a).
  now destruct (String.compare a b).
Qed.

Lemma string_leb_trans (a b c : string) :
  String.leb a b = true -> String.leb b c = true -> String.leb a c = true.
Proof.
  unfold String.leb.
  destruct (String.compare a b) eqn:Eab; try discriminate;
    destruct (String.compare b c) eqn:Ebc; try discriminate; intros _ _.
  - apply String.compare_eq_iff in Eab. subst. now rewrite Ebc.
  - apply String.compare_eq_iff in Eab. subst. now rewrite Ebc.
  - apply String.compare_eq_iff in Ebc. subst. now rewrite Eab.
  - now rewrite (string_compare_lt_trans a b c).
Qed.

(** ** The stable sort *)

Section StableSort.

Context {A : Type} (ltb : A -> A -> bool).

Lemma insert_sorted_perm (x : A) (l : list A) :
  Permutation (x :: l) (insert_sorted ltb x l).
Proof.
  induction l as [|y l IH]; simpl; [reflexivity|].
  destruct (ltb y x); [|reflexivity].
  rewrite perm_swap. now constructor.
Qed.

Lemma stable_sort_perm (l : list A) : Permutation l (stable_sort ltb l).
Proof.
  induction l as [|x l IH]; simpl; [reflexivity|].
  rewrite <- insert_sorted_perm. now constructor.
Qed.

Hypothesis ltb_asym : forall a b, ltb a b = true -> ltb b a = false.

Lemma insert_sorted_sorted (x : A) (l : list A) :
  Sorted (fun a b => ltb b a = false) l ->
  Sorted (fun a b => ltb b a = false) (insert_sorted ltb x l).
Proof.
  induction l as [|y l IH]; simpl; intros Hs.
  - repeat constructor.
  - destruct (ltb y x) eqn:E.
    + inversion Hs as [|? ? Hs' Hhd]; subst.
      constructor; [now apply IH|].
      destruct l as [|z l]; simpl.
      * constructor. now apply ltb_asym.
      * destruct (ltb z x); constructor.
        -- now inversion Hhd.
        -- now apply ltb_asym.
    + constructor; [assumption|]. now constructor.
Qed.

Lemma stable_sort_sorted (l : list A) :
  Sorted (fun a b => ltb b a = false) (stable_sort ltb l).
Proof.
  induction l as [|x l IH]; simpl; [constructor|].
  now apply insert_sorted_sorted.
Qed.

End StableSort.

Lemma insert_sorted_map {A B : Type} (f : A -> B) (ltb : B -> B -> bool)
  (x : A) (l : list A) :
  insert_sorted ltb (f x) (map f l)
  = map f (insert_sorted (fun a b => ltb (f a) (f b)) x l).
Proof.
  induction l as [|y l IH]; simpl; [reflexivity|].
  destruct (ltb (f y) (f x)); simpl; [now rewrite IH|reflexivity].
Qed.

Lemma stable_sort_map {A B : Type} (f : A -> B) (ltb : B -> B -> bool)
  (l : list A) :
  stable_sort ltb (map f l)
  = map f (stable_sort (fun a b => ltb (f a) (f b)) l).
Proof.
  induction l as [|x l IH]; simpl; [reflexivity|].
  now rewrite IH, insert_sorted_map.
Qed.

(** ** [list.sort] on keys of one kind *)

Section KeyedSort.

(** A kind of keys on which [<] never raises. *)
Variable kind : json -> bool.
Hypothesis kind_lt :
  forall a b, kind a = true -> kind b = true -> py_lt a b = Ok (key_ltb a b).

Lemma insert_keyed_pure (x : json * json) (l : list (json * json)) :
  kind (fst x) = true ->
  Forall (fun y => kind (fst y) = true) l ->
  insert_keyed x l = Ok (insert_sorted pair_ltb x l).
Proof.
  intros Hx Hl. induction Hl as [|y l Hy Hl IH]; simpl; [reflexivity|].
  rewrite kind_lt by assumption. simpl. unfold pair_ltb at 1.
  destruct (key_ltb (fst y) (fst x)); [|reflexivity].
  now rewrite IH.
Qed.

Lemma sort_keyed_pure (l : list (json * json)) :
  Forall (fun y => kind (fst y) = true) l ->
  sort_keyed l = Ok (stable_sort pair_ltb l).
Proof.
  intros Hl. induction Hl as [|x l Hx Hl IH]; simpl; [reflexivity|].
  rewrite IH. simpl. apply insert_keyed_pure; [assumption|].
  eapply Permutation_Forall; [apply stable_sort_perm|assumption].
Qed.

Lemma map_result_pure {X Y : Type} (f : X -> result Y) (g : X -> Y)
  (l : list X) :
  (forall x, In x l -> f x = Ok (g x)) -> map_result f l = Ok (map g l).
Proof.
  induction l as [|x l IH]; simpl; intros H; [reflexivity|].
  rewrite (H x) by now left. simpl.
  rewrite IH by (intros; apply H; now right). reflexivity.
Qed.

Lemma combine_map_self {X Y : Type} (g : X -> Y) (l : list X) :
  combine (map g l) l = map (fun x => (g x, x)) l.
Proof. induction l as [|x l IH]; simpl; congruence. Qed.

(** When every element has a key of the kind, [list.sort] returns the
    stable sort of the list by these keys; with [reverse], the reverse of
    the stable sort of the reversed list. *)
Lemma list_sort_pure (key : json -> result json) (k : json -> json)
  (reverse : bool) (l : list json) :
  (forall x, In x l -> key x = Ok (k x) /\ kind (k x) = true) ->
  list_sort key reverse l
  = Ok (if reverse
        then rev (stable_sort (fun a b => key_ltb (k a) (k b)) (rev l))
        else stable_sort (fun a b => key_ltb (k a) (k b)) l).
Proof.
  intros H. unfold list_sort.
  rewrite (map_result_pure key k) by (intros x Hx; now apply H).
  simpl. rewrite combine_map_self.
  assert (Hall : forall l', (forall x, In x l' -> In x l) ->
            Forall (fun y : json * json => kind (fst y) = true)
              (map (fun x => (k x, x)) l')).
  { intros l' Hin. apply Forall_forall. intros y Hy.
    apply in_map_iff in Hy. destruct Hy as [x [<- Hx]]. simpl.
    now apply H, Hin. }
  destruct reverse.
  - rewrite <- map_rev. rewrite sort_keyed_pure.
    + simpl. unfold pair_ltb.
      rewrite (stable_sort_map (fun x => (k x, x))
                 (fun a b => key_ltb (fst a) (fst b))).
      simpl. rewrite <- map_rev, map_map. simpl. now rewrite map_id.
    + apply Hall. intros x Hx. now apply in_rev.
  - rewrite sort_keyed_pure by (apply Hall; auto).
    simpl. unfold pair_ltb.
    rewrite (stable_sort_map (fun x => (k x, x))
               (fun a b => key_ltb (fst a) (fst b))).
    simpl. rewrite map_map. simpl. now rewrite map_id.
Qed.

End KeyedSort.

Lemma is_str_lt (a b : json) :
  is_str a = true -> is_str b = true -> py_lt a b = Ok (key_ltb a b).
Proof. destruct a; try discriminate; destruct b; try discriminate; reflexivity. Qed.

Lemma is_int_lt (a b : json) :
  is_int a = true -> is_int b = true -> py_lt a b = Ok (key_ltb a b).
Proof. destruct a; try discriminate; destruct b; try discriminate; reflexivity. Qed.

(** ** Movies by category *)

Lemma filter_category_pure (category : string) (vals : list json) :
  forallb wf_movie vals = true ->
  filter_category category vals = Ok (filter (has_category category) vals).
Proof.
  induction vals as [|m vals IH]; simpl; [reflexivity|].
  intros H. apply andb_true_iff in H. destruct H as [Hm Hvals].
  rewrite (IH Hvals).
  destruct m; try discriminate. simpl in *.
  apply andb_true_iff in Hm. destruct Hm as [_ Hc].
  destruct (dict_get "categories" d) as [[| | | |cs|]|]; try discriminate;
    simpl; [|reflexivity].
  now destruct (existsb (fun c => py_eq_str c category) cs).
Qed.

Lemma title_sort_key_pure (m : json) :
  wf_movie m = true -> title_sort_key m = Ok (JStr (lower_title m)).
Proof.
  destruct m; try discriminate. simpl. intros H.
  apply andb_true_iff in H. destruct H as [Ht _].
  unfold title_sort_key. simpl.
  destruct (dict_get "title" d) as [[| | |s| |]|]; try discriminate;
    reflexivity.
Qed.

Lemma matching_wf (category : string) (ms : dict) (m : json) :
  forallb wf_movie (dict_values ms) = true ->
  In m (matching category ms) -> wf_movie m = true.
Proof.
  intros Hwf Hin. rewrite forallb_forall in Hwf. apply Hwf.
  unfold matching in Hin. destruct (String.eqb category ALL_CATEGORY); auto.
  now apply filter_In in Hin.
Qed.

(** What [get_movies_by_category] does on a movies document whose movies
    are well formed, for every integer limit and offset. *)
Lemma get_movies_by_category_run (st : store) (d ms : dict)
  (category : string) (limit offset : Z) :
  movies_file st = Doc (JDict d) ->
  dict_get "movies" d = Some (JDict ms) ->
  forallb wf_movie (dict_values ms) = true ->
  get_movies_by_category category limit offset st
  = (Ok (py_slice (sorted_matches category ms) offset (offset + limit)), st).
Proof.
  intros Hdoc Hms Hwf.
  unfold get_movies_by_category, bind, lift, load_json.
  cbn [read]. rewrite Hdoc. f_equal.
  assert (Hall :
    (if String.eqb category ALL_CATEGORY
     then ms0 <- py_getitem (JDict d) "movies" ;; py_values ms0
     else ms0 <- py_getitem (JDict d) "movies" ;;
          vals <- py_values ms0 ;; filter_category category vals)
    = Ok (matching category ms)).
  { unfold matching, py_getitem. rewrite Hms.
    destruct (String.eqb category ALL_CATEGORY); simpl; [reflexivity|].
    now apply filter_category_pure. }
  rewrite Hall. cbn [rbind].
  rewrite (list_sort_pure is_str is_str_lt title_sort_key
             (fun m => JStr (lower_title m))).
  - reflexivity.
  - intros x Hx. split; [|reflexivity].
    apply title_sort_key_pure. eapply matching_wf; eauto.
Qed.

Lemma sorted_matches_perm (category : string) (ms : dict) :
  Permutation (sorted_matches category ms) (matching category ms).
Proof. symmetry. apply stable_sort_perm. Qed.

Lemma sorted_matches_sorted (category : string) (ms : dict) :
  StronglySorted
    (fun a b => String.leb (lower_title a) (lower_title b) = true)
    (sorted_matches category ms).
Proof.
  apply Sorted_StronglySorted.
  - intros a b c. apply string_leb_trans.
  - unfold sorted_matches.
    eapply Sorted_ind with
      (P := fun l => Sorted (fun a b =>
              String.leb (lower_title a) (lower_title b) = true) l).
    3: { apply (stable_sort_sorted
                  (fun a b => String.ltb (lower_title a) (lower_title b))).
         intros a b. apply string_ltb_asym. }
    + constructor.
    + intros a l _ IH Hhd. constructor; [assumption|].
      destruct Hhd; constructor. now apply string_not_ltb_leb.
Qed.

(** C3. On a movies document whose movies are well formed: the full
    matching set is every movie for the category ["All"] and otherwise the
    movies with the category among their tags ([matching]); its sorted
    form [sorted_matches] is a rearrangement of it in ascending order of
    lowercase title; and the call with limit [L] and offset [O] returns
    the slice [sorted[O : O + L]] of the sorted list, which for natural
    numbers [L] and [O] is its elements at positions [O] to [O + L - 1]. *)
Theorem get_movies_by_category_sorted_slice (st : store) (d ms : dict)
  (category : string) :
  movies_file st = Doc (JDict d) ->
  dict_get "movies" d = Some (JDict ms) ->
  forallb wf_movie (dict_values ms) = true ->
  matching category ms
  = (if String.eqb category ALL_CATEGORY then dict_values ms
     else filter (has_category category) (dict_values ms))
  /\ Permutation (sorted_matches category ms) (matching category ms)
  /\ StronglySorted
       (fun a b => String.leb (lower_title a) (lower_title b) = true)
       (sorted_matches category ms)
  /\ (forall limit offset : Z,
         get_movies_by_category category limit offset st
         = (Ok (py_slice (sorted_matches category ms) offset
                  (offset + limit)), st))
  /\ (forall limit offset : nat,
         get_movies_by_category category (Z.of_nat limit) (Z.of_nat offset)
           st
         = (Ok (firstn limit (skipn offset (sorted_matches category ms))),
            st)).
Proof.
  intros Hdoc Hms Hwf. split; [reflexivity|]. split; [|split; [|split]].
  - apply sorted_matches_perm.
  - apply sorted_matches_sorted.
  - intros limit offset. now apply get_movies_by_category_run with (d := d).
  - intros limit offset.
    rewrite (get_movies_by_category_run st d ms) by assumption.
    now rewrite py_slice_page.
Qed.

Lemma all_pages_from (st : store) (d ms : dict) (category : string)
  (n : nat) :
  movies_file st = Doc (JDict d) ->
  dict_get "movies" d = Some (JDict ms) ->
  forallb wf_movie (dict_values ms) = true ->
  (0 < n)%nat ->
  forall (fuel o : nat),
    (List.length (skipn o (sorted_matches category ms)) < fuel)%nat ->
    all_pages fuel category (Z.of_nat n) (Z.of_nat o) st
    = Some (skipn o (sorted_matches category ms)).
Proof.
  intros Hdoc Hms Hwf Hn.
  induction fuel as [|fuel IH]; intros o Hlen; [lia|].
  cbn [all_pages].
  rewrite (get_movies_by_category_run st d ms) by assumption.
  rewrite py_slice_page. cbn [fst].
  destruct (skipn o (sorted_matches category ms)) as [|x t] eqn:E.
  - now rewrite firstn_nil.
  - destruct n as [|n]; [lia|].
    cbn [firstn].
    rewrite <- Nat2Z.inj_add.
    rewrite IH.
    + cbn [option_map]. f_equal.
      rewrite Nat.add_comm, <- skipn_skipn, E. cbn [skipn].
      cbn [app]. f_equal. apply firstn_skipn.
    + rewrite Nat.add_comm, <- skipn_skipn, E. cbn [skipn].
      rewrite length_skipn. simpl in Hlen. lia.
Qed.

(** C4. On a fixed movies document whose movies are well formed and for a
    limit [L > 0], asking for the pages at offsets [0], [L], [2L], ...
    until a page comes back empty and concatenating them gives the full
    sorted match set itself: every element once, in order.  Any fuel above
    the size of the match set suffices for the loop to stop. *)
Theorem pages_rebuild_sorted_matches (st : store) (d ms : dict)
  (category : string) (limit : Z) (fuel : nat) :
  movies_file st = Doc (JDict d) ->
  dict_get "movies" d = Some (JDict ms) ->
  forallb wf_movie (dict_values ms) = true ->
  0 < limit ->
  (List.length (matching category ms) < fuel)%nat ->
  all_pages fuel category limit 0 st = Some (sorted_matches category ms).
Proof.
  intros Hdoc Hms Hwf Hlimit Hfuel.
  rewrite <- (Z2Nat.id limit) by lia.
  change 0 with (Z.of_nat 0).
  rewrite (all_pages_from st d ms category (Z.to_nat limit)); auto.
  - lia.
  - cbn [skipn].
    now rewrite (Permutation_length (sorted_matches_perm category ms)).
Qed.

(** ** Pending requests *)

Lemma request_id_with_user (users : dict) (r : json) :
  request_id_of (with_user users r) = request_id_of r.
Proof.
  destruct r; try reflexivity. unfold with_user, request_id_of.
  now rewrite dict_get_set_other by discriminate.
Qed.

Lemma is_pending_with_user (users : dict) (r : json) :
  is_pending (with_user users r) = is_pending r.
Proof.
  destruct r; try reflexivity. unfold with_user, is_pending.
  now rewrite dict_get_set_other by discriminate.
Qed.

Lemma users_of_with_user (users : dict) (r : json) :
  wf_request r = true ->
  py_getitem (with_user users r) "users"
  = Ok (user_record users (with_user users r)).
Proof.
  destruct r; try discriminate. intros _.
  unfold with_user, py_getitem. rewrite dict_get_set_same.
  unfold user_record at 2.
  now rewrite dict_get_set_other by discriminate.
Qed.

Lemma pending_with_users_pure (users : dict) (vals : list json) :
  forallb wf_request vals = true ->
  pending_with_users (JDict users) vals
  = Ok (map (with_user users) (filter is_pending vals)).
Proof.
  induction vals as [|r vals IH]; simpl; [reflexivity|].
  intros H. apply andb_true_iff in H. destruct H as [Hr Hvals].
  rewrite (IH Hvals).
  destruct r; try discriminate. simpl in *.
  destruct (dict_get "request_id" d) as [[| |n| | |]|]; try discriminate.
  destruct (dict_get "user_id" d) as [user_id|] eqn:Huid; try discriminate.
  destruct (dict_get "status" d) as [status|]; simpl; [|reflexivity].
  destruct (py_eq_str status "pending"); simpl; [|reflexivity].
  rewrite Huid. now destruct (dict_get (py_str user_id) users).
Qed.

Lemma request_key_pure (users : dict) (r : json) :
  wf_request r = true ->
  py_get (with_user users r) "request_id" (JInt 0)
  = Ok (JInt (request_id_of (with_user users r))).
Proof.
  destruct r; try discriminate. unfold wf_request, with_user.
  intros H. unfold request_id_of, py_get.
  rewrite dict_get_set_other by discriminate.
  destruct (dict_get "request_id" d) as [[| |n| | |]|]; try discriminate.
  reflexivity.
Qed.

(** What [get_pending_requests] does on well-formed requests, for every
    integer limit and offset. *)
Lemma get_pending_requests_run (st : store) (reqs rs users : dict)
  (limit offset : Z) :
  requests_file st = Doc (JDict reqs) ->
  dict_get "requests" reqs = Some (JDict rs) ->
  forallb wf_request (dict_values rs) = true ->
  loaded (users_file st) = JDict users ->
  get_pending_requests limit offset st
  = (Ok (py_slice (newest_pending users rs) offset (offset + limit)), st).
Proof.
  intros Hdoc Hrs Hwf Husers.
  unfold get_pending_requests, bind, lift, load_json.
  cbn [read]. unfold loaded in Husers. rewrite Hdoc, Husers. f_equal.
  unfold py_getitem. rewrite Hrs. cbn [rbind py_values].
  rewrite pending_with_users_pure by assumption. cbn [rbind].
  rewrite (list_sort_pure is_int is_int_lt _
             (fun x => JInt (request_id_of x))).
  - reflexivity.
  - intros x Hx. apply in_map_iff in Hx. destruct Hx as [r [<- Hr]].
    split; [|reflexivity].
    apply request_key_pure.
    apply filter_In in Hr. destruct Hr as [Hr _].
    rewrite forallb_forall in Hwf. now apply Hwf.
Qed.

Lemma distinct_keys_NoDup (ks : list string) :
  distinct_keys ks = true -> NoDup ks.
Proof.
  induction ks as [|k ks IH]; simpl; intros H; constructor.
  - apply andb_true_iff in H. destruct H as [H _].
    apply negb_true_iff in H. intros Hin.
    assert (E : existsb (String.eqb k) ks = true).
    { apply existsb_exists. exists k. split; [assumption|].
      apply String.eqb_refl. }
    congruence.
  - apply andb_true_iff in H. now apply IH.
Qed.

Lemma NoDup_map_filter {A B : Type} (f : A -> B) (P : A -> bool)
  (l : list A) :
  NoDup (map f l) -> NoDup (map f (filter P l)).
Proof.
  induction l as [|x l IH]; simpl; intros H; [constructor|].
  inversion H as [|? ? Hx Hl]; subst.
  destruct (P x); simpl; [|now apply IH].
  constructor; [|now apply IH].
  intros Hin. apply Hx.
  apply in_map_iff in Hin. destruct Hin as [y [E Hy]].
  apply filter_In in Hy. apply in_map_iff. exists y. tauto.
Qed.

Lemma wf_requests_distinct_ids (rs : dict) :
  wf_requests rs = true -> NoDup (map request_id_of (dict_values rs)).
Proof.
  intros H. apply andb_true_iff in H. destruct H as [Hk Hr].
  apply distinct_keys_NoDup in Hk.
  apply (NoDup_map_inv str_of_Z).
  replace (map str_of_Z (map request_id_of (dict_values rs)))
    with (dict_keys rs); [assumption|].
  unfold dict_keys, dict_values. rewrite !map_map.
  apply map_ext_in. intros kr Hin.
  rewrite forallb_forall in Hr. specialize (Hr kr Hin).
  apply andb_true_iff in Hr. destruct Hr as [_ Hr].
  now apply String.eqb_eq in Hr.
Qed.

Lemma wf_requests_records (rs : dict) :
  wf_requests rs = true -> forallb wf_request (dict_values rs) = true.
Proof.
  intros H. apply andb_true_iff in H. destruct H as [_ Hr].
  apply forallb_forall. intros r Hin.
  apply in_map_iff in Hin. destruct Hin as [kr [<- Hin]].
  rewrite forallb_forall in Hr. specialize (Hr kr Hin).
  now apply andb_true_iff in Hr.
Qed.

Lemma StronglySorted_snoc {A : Type} (R : A -> A -> Prop) (l : list A)
  (x : A) :
  StronglySorted R l -> Forall (fun y => R y x) l ->
  StronglySorted R (l ++ [x]).
Proof.
  induction 1 as [|y l Hl IH Hy]; simpl; intros Hx.
  - repeat constructor.
  - inversion Hx; subst. constructor; [now apply IH|].
    apply Forall_app. split; [assumption|]. now constructor.
Qed.

Lemma StronglySorted_rev {A : Type} (R : A -> A -> Prop) (l : list A) :
  StronglySorted R l -> StronglySorted (fun a b => R b a) (rev l).
Proof.
  induction 1 as [|x l Hl IH Hx]; simpl; [constructor|].
  apply StronglySorted_snoc; [assumption|].
  apply Forall_forall. intros y Hy. apply in_rev in Hy.
  rewrite Forall_forall in Hx. now apply Hx.
Qed.

Lemma StronglySorted_strict {A : Type} (f : A -> Z) (l : list A) :
  StronglySorted (fun a b => f b <= f a) l -> NoDup (map f l) ->
  StronglySorted (fun a b => f b < f a) l.
Proof.
  induction 1 as [|x l Hl IH Hx]; simpl; intros Hnd; constructor.
  - inversion Hnd. now apply IH.
  - inversion Hnd as [|? ? Hnotin _]; subst.
    apply Forall_forall. intros y Hy.
    rewrite Forall_forall in Hx. specialize (Hx y Hy).
    assert (f y <> f x).
    { intros E. apply Hnotin. rewrite <- E. now apply in_map. }
    lia.
Qed.

Lemma newest_pending_perm (users rs : dict) :
  Permutation (newest_pending users rs)
    (map (with_user users) (filter is_pending (dict_values rs))).
Proof.
  unfold newest_pending.
  rewrite <- Permutation_rev, <- stable_sort_perm.
  symmetry. apply Permutation_rev.
Qed.

Lemma newest_pending_descending (users rs : dict) :
  wf_requests rs = true ->
  StronglySorted (fun a b => request_id_of b < request_id_of a)
    (newest_pending users rs).
Proof.
  intros Hwf. apply StronglySorted_strict.
  - unfold newest_pending.
    apply (StronglySorted_rev
             (fun a b => request_id_of a <= request_id_of b)).
    apply Sorted_StronglySorted; [intros a b c; lia|].
    eapply Sorted_ind with
      (P := fun l => Sorted (fun a b =>
              request_id_of a <= request_id_of b) l).
    3: { apply (stable_sort_sorted
                  (fun a b => request_id_of a <? request_id_of b)).
         intros a b. rewrite Z.ltb_lt, Z.ltb_ge. lia. }
    + constructor.
    + intros a l _ IH Hhd. constructor; [assumption|].
      destruct Hhd as [|b l Hb]; constructor. now apply Z.ltb_ge in Hb.
  - eapply Permutation_NoDup.
    + apply Permutation_map. symmetry. apply newest_pending_perm.
    + rewrite map_map.
      rewrite (map_ext _ request_id_of)
        by (intros; apply request_id_with_user).
      apply NoDup_map_filter. now apply wf_requests_distinct_ids.
Qed.

(** C5. On a requests collection whose records are keyed by their ids, and
    a users collection that is a dict or missing: the pending requests
    with their user records, newest first ([newest_pending]), are exactly
    the requests of status ["pending"], each with the record of its user
    under ["users"] (the empty dict when the user is unknown), in strictly
    descending order of request id; the call with limit [L] and offset [O]
    returns the slice [O : O + L] of that list, which for natural numbers
    [L] and [O] is its elements at positions [O] to [O + L - 1]. *)
Theorem get_pending_requests_newest_first (st : store) (reqs rs users : dict) :
  requests_file st = Doc (JDict reqs) ->
  dict_get "requests" reqs = Some (JDict rs) ->
  wf_requests rs = true ->
  loaded (users_file st) = JDict users ->
  Permutation (newest_pending users rs)
    (map (with_user users) (filter is_pending (dict_values rs)))
  /\ Forall (fun r => is_pending r = true) (newest_pending users rs)
  /\ Forall (fun r => py_getitem r "users" = Ok (user_record users r))
       (newest_pending users rs)
  /\ StronglySorted (fun a b => request_id_of b < request_id_of a)
       (newest_pending users rs)
  /\ (forall limit offset : Z,
         get_pending_requests limit offset st
         = (Ok (py_slice (newest_pending users rs) offset (offset + limit)),
            st))
  /\ (forall limit offset : nat,
         get_pending_requests (Z.of_nat limit) (Z.of_nat offset) st
         = (Ok (firstn limit (skipn offset (newest_pending users rs))), st)).
Proof.
  intros Hdoc Hrs Hwf Husers. split; [|split; [|split; [|split; [|split]]]].
  - apply newest_pending_perm.
  - eapply Permutation_Forall.
    + symmetry. apply newest_pending_perm.
    + apply Forall_forall. intros x Hx.
      apply in_map_iff in Hx. destruct Hx as [r [<- Hr]].
      rewrite is_pending_with_user. now apply filter_In in Hr.
  - eapply Permutation_Forall.
    + symmetry. apply newest_pending_perm.
    + apply Forall_forall. intros x Hx.
      apply in_map_iff in Hx. destruct Hx as [r [<- Hr]].
      apply users_of_with_user.
      apply filter_In in Hr. destruct Hr as [Hr _].
      apply wf_requests_records in Hwf.
      rewrite forallb_forall in Hwf. now apply Hwf.
  - now apply newest_pending_descending.
  - intros limit offset.
    apply get_pending_requests_run with (reqs := reqs); auto.
    now apply wf_requests_records.
  - intros limit offset.
    rewrite (get_pending_requests_run st reqs rs users); auto.
    + now rewrite py_slice_page.
    + now apply wf_requests_records.
Qed.

(** ** Counters *)

Lemma counter_ok_inv (items_key : string) (f : file) :
  counter_ok items_key f = true ->
  exists d n items,
    f = Doc (JDict d)
    /\ dict_get "next_id" d = Some (JInt n)
    /\ dict_get items_key d = Some (JDict items)
    /\ keys_below n items = true.
Proof.
  unfold counter_ok. destruct f as [| |[| | | | |d]]; try discriminate.
  destruct (dict_get "next_id" d) as [[| |n| | |]|] eqn:Hn;
    try discriminate.
  destruct (dict_get items_key d) as [[| | | | |items]|] eqn:Hi;
    try discriminate.
  intros H. now exists d, n, items.
Qed.

Lemma counter_step_refl (items_key : string) (f : file) :
  counter_ok items_key f = true -> counter_step items_key f f.
Proof.
  intros H. split; [assumption|].
  intros n Hn. exists n. split; [assumption|lia].
Qed.

Lemma keys_below_incl (n : Z) (a b : dict) :
  incl (dict_keys a) (dict_keys b) ->
  keys_below n b = true -> keys_below n a = true.
Proof.
  unfold keys_below. rewrite !forallb_forall. intros Hincl H k Hk.
  apply H, Hincl, Hk.
Qed.

Lemma keys_below_not_mem (n : Z) (items : dict) :
  keys_below n items = true -> dict_mem (str_of_Z n) items = false.
Proof.
  unfold keys_below. rewrite forallb_forall, dict_mem_keys. intros H.
  destruct (existsb (String.eqb (str_of_Z n)) (dict_keys items)) eqn:E;
    [|reflexivity].
  apply existsb_exists in E. destruct E as [k [Hk E]].
  apply String.eqb_eq in E. subst k.
  specialize (H _ Hk). rewrite numeric_key_str_of_Z in H.
  apply Z.ltb_lt in H. lia.
Qed.

Lemma keys_below_add (n : Z) (v : json) (items : dict) :
  keys_below n items = true ->
  keys_below (n + 1) (dict_set (str_of_Z n) v items) = true.
Proof.
  intros H. unfold keys_below.
  rewrite dict_keys_set_absent by now apply keys_below_not_mem.
  rewrite forallb_app. apply andb_true_iff. split.
  - unfold keys_below in H. rewrite forallb_forall in *. intros k Hk.
    specialize (H k Hk). destruct (numeric_key k); [|reflexivity].
    apply Z.ltb_lt in H. apply Z.ltb_lt. lia.
  - simpl. rewrite numeric_key_str_of_Z.
    rewrite andb_true_r. apply Z.ltb_lt. lia.
Qed.

(** An update of the records of an envelope that keeps their keys below
    the counter. *)
Lemma counter_step_items (items_key : string) (d items' : dict) (n : Z) :
  items_key <> "next_id" ->
  dict_get "next_id" d = Some (JInt n) ->
  keys_below n items' = true ->
  counter_step items_key (Doc (JDict d))
    (Doc (JDict (dict_set items_key (JDict items') d))).
Proof.
  intros Hne Hn Hbelow. split.
  - unfold counter_ok.
    rewrite dict_get_set_other by congruence.
    now rewrite Hn, dict_get_set_same.
  - intros m Hm. exists m. split; [|lia].
    unfold next_id_of in *.
    now rewrite dict_get_set_other by congruence.
Qed.

(** The creation of a record under the counter, which then advances. *)
Lemma counter_step_create (items_key : string) (d items : dict) (v : json)
  (n : Z) :
  items_key <> "next_id" ->
  dict_get "next_id" d = Some (JInt n) ->
  keys_below n items = true ->
  counter_step items_key (Doc (JDict d))
    (Doc (JDict
            (dict_set "next_id" (JInt (n + 1))
               (dict_set items_key
                  (JDict (dict_set (str_of_Z n) v items)) d)))).
Proof.
  intros Hne Hn Hbelow. split.
  - unfold counter_ok.
    rewrite dict_get_set_same.
    rewrite dict_get_set_other by assumption.
    rewrite dict_get_set_same. now apply keys_below_add.
  - intros m Hm. unfold next_id_of in *. rewrite Hn in Hm.
    injection Hm as <-.
    rewrite dict_get_set_same. exists (n + 1). split; [reflexivity|lia].
Qed.

Lemma add_movie_request_run (st : store) (d rs : dict) (n : Z)
  (user_id : Z) (movie_name now : string) :
  requests_file st = Doc (JDict d) ->
  dict_get "next_id" d = Some (JInt n) ->
  dict_get "requests" d = Some (JDict rs) ->
  add_movie_request user_id movie_name now st
  = (Ok (JInt n),
     write REQUESTS_FILE
       (Doc (JDict
               (dict_set "next_id" (JInt (n + 1))
                  (dict_set "requests"
                     (JDict (dict_set (str_of_Z n)
                               (JDict [("request_id", JInt n);
                                       ("user_id", JInt user_id);
                                       ("movie_name", JStr movie_name);
                                       ("status", JStr "pending");
                                       ("requested_at", JStr now)]) rs))
                     d)))) st).
Proof.
  intros Hdoc Hn Hrs. unfold add_movie_request. run_store.
  rewrite Hdoc. simpl. rewrite Hn. simpl. rewrite Hrs. simpl.
  rewrite dict_get_set_other by discriminate. rewrite Hn. reflexivity.
Qed.

(** Case analysis on every test a store function makes. *)
Ltac split_cases :=
  repeat (simpl;
          match goal with
          | |- context [match ?x with _ => _ end] =>
              lazymatch type of x with
              | prod _ _ => fail
              | _ => destruct x eqn:?
              end
          end).

Create HintDb store_ops.
#[local] Hint Unfold initialize_database init_file user_exists
  add_user_if_not_exists get_user_role add_admin get_admin_info
  remove_admin remove_channel remove_keyed get_all_admins add_movie
  get_movie_details search_movies get_movies_by_first_letter
  get_movies_by_category delete_movie increment_download_count add_channel
  get_channel_info get_all_channels add_movie_request get_pending_requests
  get_total_pending_requests_count update_request_status
  get_movies_by_uploader bind lift ret load_json save_json : store_ops.

(** A store function that writes neither the movies nor the requests
    document. *)
Ltac frame :=
  autounfold with store_ops; split_cases; reflexivity.

Lemma delete_movie_step (st : store) (movie_id : Z) :
  counter_ok "movies" (movies_file st) = true ->
  counter_step "movies" (movies_file st)
    (movies_file (snd (delete_movie movie_id st))).
Proof.
  intros Hok.
  destruct (counter_ok_inv _ _ Hok) as (d & n & ms & Hdoc & Hn & Hms & Hb).
  unfold delete_movie. run_store. rewrite Hdoc. simpl. rewrite Hms. simpl.
  destruct (dict_mem (str_of_Z movie_id) ms) eqn:E; simpl.
  - apply (counter_step_items "movies" d _ n); auto; [discriminate|].
    eapply keys_below_incl; [apply dict_keys_del_incl|assumption].
  - rewrite Hdoc. apply counter_step_refl. now rewrite <- Hdoc.
Qed.

Lemma increment_download_count_step (st : store) (movie_id : Z) :
  counter_ok "movies" (movies_file st) = true ->
  counter_step "movies" (movies_file st)
    (movies_file (snd (increment_download_count movie_id st))).
Proof.
  intros Hok.
  destruct (counter_ok_inv _ _ Hok) as (d & n & ms & Hdoc & Hn & Hms & Hb).
  rewrite Hdoc in Hok.
  unfold increment_download_count. run_store.
  rewrite Hdoc. simpl. rewrite Hms. simpl.
  destruct (dict_mem (str_of_Z movie_id) ms) eqn:E; simpl;
    [|rewrite Hdoc; now apply counter_step_refl].
  destruct (dict_get (str_of_Z movie_id) ms) as [m|]; simpl;
    [|rewrite Hdoc; now apply counter_step_refl].
  destruct (py_get m "download_count" (JInt 0)) as [c|e]; simpl;
    [|rewrite Hdoc; now apply counter_step_refl].
  destruct (py_add1 c) as [c'|e]; simpl;
    [|rewrite Hdoc; now apply counter_step_refl].
  destruct (py_setitem m "download_count" c') as [m'|e]; simpl;
    [|rewrite Hdoc; now apply counter_step_refl].
  apply (counter_step_items "movies" d _ n); auto; [discriminate|].
  unfold keys_below. now rewrite dict_keys_set_present.
Qed.

Lemma update_request_status_step (st : store) (request_id : Z)
  (status now : string) :
  counter_ok "requests" (requests_file st) = true ->
  counter_step "requests" (requests_file st)
    (requests_file (snd (update_request_status request_id status now st))).
Proof.
  intros Hok.
  destruct (counter_ok_inv _ _ Hok) as (d & n & rs & Hdoc & Hn & Hrs & Hb).
  rewrite Hdoc in Hok.
  unfold update_request_status. run_store.
  rewrite Hdoc. simpl. rewrite Hrs. simpl.
  destruct (dict_mem (str_of_Z request_id) rs) eqn:E; simpl;
    [|rewrite Hdoc; now apply counter_step_refl].
  destruct (dict_get (str_of_Z request_id) rs) as [r|]; simpl;
    [|rewrite Hdoc; now apply counter_step_refl].
  destruct (py_setitem r "status" (JStr status)) as [r1|e]; simpl;
    [|rewrite Hdoc; now apply counter_step_refl].
  destruct (py_setitem r1 "updated_at" (JStr now)) as [r2|e]; simpl;
    [|rewrite Hdoc; now apply counter_step_refl].
  apply (counter_step_items "requests" d _ n); auto; [discriminate|].
  unfold keys_below. now rewrite dict_keys_set_present.
Qed.

Lemma add_movie_step (st : store) (movie_data : dict) (now : string) :
  counter_ok "movies" (movies_file st) = true ->
  counter_step "movies" (movies_file st)
    (movies_file (snd (add_movie movie_data now st))).
Proof.
  intros Hok.
  destruct (counter_ok_inv _ _ Hok) as (d & n & ms & Hdoc & Hn & Hms & Hb).
  rewrite (add_movie_run st d ms n movie_data now Hdoc Hn Hms).
  simpl. rewrite Hdoc. apply counter_step_create; auto. discriminate.
Qed.

Lemma add_movie_request_step (st : store) (user_id : Z)
  (movie_name now : string) :
  counter_ok "requests" (requests_file st) = true ->
  counter_step "requests" (requests_file st)
    (requests_file (snd (add_movie_request user_id movie_name now st))).
Proof.
  intros Hok.
  destruct (counter_ok_inv _ _ Hok) as (d & n & rs & Hdoc & Hn & Hrs & Hb).
  rewrite (add_movie_request_run st d rs n user_id movie_name now
             Hdoc Hn Hrs).
  simpl. rewrite Hdoc. apply counter_step_create; auto. discriminate.
Qed.

Lemma initialize_database_keeps (st : store) (j k : json) :
  movies_file st = Doc j -> requests_file st = Doc k ->
  movies_file (snd (initialize_database st)) = movies_file st
  /\ requests_file (snd (initialize_database st)) = requests_file st.
Proof.
  intros Hm Hr. unfold initialize_database, init_file, bind.
  destruct st as [u a m c r t]. simpl in *. subst m r.
  destruct u, a, c, t; split; reflexivity.
Qed.

(** Every call keeps both counters above their keys and lowers neither. *)
Lemma call_counter_step (st : store) (c : call) :
  counter_ok "movies" (movies_file st) = true ->
  counter_ok "requests" (requests_file st) = true ->
  counter_step "movies" (movies_file st) (movies_file (after c st))
  /\ counter_step "requests" (requests_file st)
       (requests_file (after c st)).
Proof.
  intros Hm Hr.
  assert (Same : forall st',
             movies_file st' = movies_file st ->
             requests_file st' = requests_file st ->
             counter_step "movies" (movies_file st) (movies_file st')
             /\ counter_step "requests" (requests_file st)
                  (requests_file st')).
  { intros st' -> ->. split; now apply counter_step_refl. }
  destruct c; cbn [after];
    try (apply Same; frame).
  - destruct (counter_ok_inv _ _ Hm) as (d & n & ms & Hdoc & _).
    destruct (counter_ok_inv _ _ Hr) as (d' & n' & rs & Hdoc' & _).
    destruct (initialize_database_keeps st _ _ Hdoc Hdoc') as [E1 E2].
    now apply Same.
  - split; [now apply add_movie_step|].
    replace (requests_file (snd (add_movie movie_data now st)))
      with (requests_file st) by frame.
    now apply counter_step_refl.
  - split; [now apply delete_movie_step|].
    replace (requests_file (snd (delete_movie movie_id st)))
      with (requests_file st) by frame.
    now apply counter_step_refl.
  - split; [now apply increment_download_count_step|].
    replace (requests_file (snd (increment_download_count movie_id st)))
      with (requests_file st) by frame.
    now apply counter_step_refl.
  - split; [|now apply add_movie_request_step].
    replace (movies_file (snd (add_movie_request user_id movie_name now st)))
      with (movies_file st) by frame.
    now apply counter_step_refl.
  - split; [|now apply update_request_status_step].
    replace (movies_file
               (snd (update_request_status request_id status now st)))
      with (movies_file st) by frame.
    now apply counter_step_refl.
Qed.

(** C6. In a state where each of the two counters exceeds every numeric
    key of its collection: [add_movie] and [add_movie_request] return the
    counter as the new id, that id was the key of no record, the record is
    stored under it, and the counter left behind is greater than the id and
    than every numeric key of the collection, the new one included; and
    after any call of the interface both counters still exceed every
    numeric key of their collection and neither is lower than before. *)
Theorem counters_exceed_keys (st : store) :
  counter_ok "movies" (movies_file st) = true ->
  counter_ok "requests" (requests_file st) = true ->
  (forall movie_data now,
      let st' := snd (add_movie movie_data now st) in
      exists n n',
        fst (add_movie movie_data now st) = Ok (JInt n)
        /\ dict_mem (str_of_Z n) (items_of "movies" (movies_file st)) = false
        /\ dict_mem (str_of_Z n) (items_of "movies" (movies_file st')) = true
        /\ next_id_of (movies_file st') = Some n'
        /\ n < n'
        /\ keys_below n' (items_of "movies" (movies_file st')) = true)
  /\ (forall user_id movie_name now,
         let st' := snd (add_movie_request user_id movie_name now st) in
         exists n n',
           fst (add_movie_request user_id movie_name now st) = Ok (JInt n)
           /\ dict_mem (str_of_Z n) (items_of "requests" (requests_file st))
              = false
           /\ dict_mem (str_of_Z n) (items_of "requests" (requests_file st'))
              = true
           /\ next_id_of (requests_file st') = Some n'
           /\ n < n'
           /\ keys_below n' (items_of "requests" (requests_file st')) = true)
  /\ (forall c : call,
         counter_ok "movies" (movies_file (after c st)) = true
         /\ counter_ok "requests" (requests_file (after c st)) = true
         /\ (forall n, next_id_of (movies_file st) = Some n ->
                       exists n', next_id_of (movies_file (after c st))
                                  = Some n' /\ n <= n')
         /\ (forall n, next_id_of (requests_file st) = Some n ->
                       exists n', next_id_of (requests_file (after c st))
                                  = Some n' /\ n <= n')).
Proof.
  intros Hm Hr. split; [|split].
  - intros movie_data now st'. subst st'.
    destruct (counter_ok_inv _ _ Hm) as (d & n & ms & Hdoc & Hn & Hms & Hb).
    rewrite (add_movie_run st d ms n movie_data now Hdoc Hn Hms).
    exists n, (n + 1). cbn [fst snd]. simpl movies_file. rewrite Hdoc.
    unfold items_of, next_id_of. rewrite Hms.
    rewrite dict_get_set_same.
    rewrite dict_get_set_other by discriminate.
    rewrite dict_get_set_same.
    repeat split.
    + now apply keys_below_not_mem.
    + rewrite dict_mem_set, String.eqb_refl. reflexivity.
    + lia.
    + now apply keys_below_add.
  - intros user_id movie_name now st'. subst st'.
    destruct (counter_ok_inv _ _ Hr) as (d & n & rs & Hdoc & Hn & Hrs & Hb).
    rewrite (add_movie_request_run st d rs n user_id movie_name now
               Hdoc Hn Hrs).
    exists n, (n + 1). cbn [fst snd]. simpl requests_file. rewrite Hdoc.
    unfold items_of, next_id_of. rewrite Hrs.
    rewrite dict_get_set_same.
    rewrite dict_get_set_other by discriminate.
    rewrite dict_get_set_same.
    repeat split.
    + now apply keys_below_not_mem.
    + rewrite dict_mem_set, String.eqb_refl. reflexivity.
    + lia.
    + now apply keys_below_add.
  - intros c.
    destruct (call_counter_step st c Hm Hr) as [[H1 H2] [H3 H4]].
    auto.
Qed.


(** * Further properties of the store *)

(** ** More on dictionaries *)

Lemma load_json_run (p : path) (st : store) :
  load_json p st = (Ok (loaded (read p st)), st).
Proof. reflexivity. Qed.

Lemma dict_set_absent (k : string) (v : json) (d : dict) :
  dict_mem k d = false -> dict_set k v d = d ++ [(k, v)].
Proof.
  unfold dict_mem. induction d as [|[k' v'] d IH]; simpl; auto.
  destruct (String.eqb k k'); try discriminate.
  intros H. now rewrite IH.
Qed.


Lemma dict_get_del_other (k k' : string) (d : dict) :
  k <> k' -> dict_get k (dict_del k' d) = dict_get k d.
Proof.
  intros Hne. induction d as [|[k0 v0] d IH]; simpl; auto.
  destruct (String.eqb k' k0) eqn:E; simpl.
  - apply String.eqb_eq in E. subst k0.
    apply String.eqb_neq in Hne. now rewrite Hne.
  - now rewrite IH.
Qed.

Lemma dict_get_del_same (k : string) (d : dict) :
  distinct_keys (dict_keys d) = true -> dict_get k (dict_del k d) = None.
Proof.
  induction d as [|[k0 v0] d IH]; simpl; auto.
  intros H. apply andb_true_iff in H. destruct H as [H1 H2].
  destruct (String.eqb k k0) eqn:E; simpl.
  - apply String.eqb_eq in E. subst k0.
    apply negb_true_iff in H1. fold (dict_keys d) in H1.
    rewrite <- dict_mem_keys in H1. unfold dict_mem in H1.
    now destruct (dict_get k d).
  - rewrite E. now apply IH.
Qed.

Lemma dict_mem_get (k : string) (d : dict) :
  dict_mem k d = true -> exists v, dict_get k d = Some v.
Proof. unfold dict_mem. destruct (dict_get k d); eauto. discriminate. Qed.

Lemma dict_get_mem (k : string) (v : json) (d : dict) :
  dict_get k d = Some v -> dict_mem k d = true.
Proof. unfold dict_mem. now intros ->. Qed.

(** The first binding of a key splits the dict around it. *)
Lemma dict_get_split (k : string) (v : json) (d : dict) :
  dict_get k d = Some v ->
  exists l1 l2, d = l1 ++ (k, v) :: l2 /\ dict_mem k l1 = false.
Proof.
  induction d as [|[k0 v0] d IH]; simpl; [discriminate|].
  destruct (String.eqb k k0) eqn:E.
  - intros H. injection H as ->. apply String.eqb_eq in E. subst k0.
    now exists [], d.
  - intros H. destruct (IH H) as (l1 & l2 & -> & Hl1).
    exists ((k0, v0) :: l1), l2. split; [reflexivity|].
    unfold dict_mem in *. simpl. now rewrite E.
Qed.

Lemma dict_set_split (k : string) (v v' : json) (l1 l2 : dict) :
  dict_mem k l1 = false ->
  dict_set k v' (l1 ++ (k, v) :: l2) = l1 ++ (k, v') :: l2.
Proof.
  unfold dict_mem. induction l1 as [|[k0 v0] l1 IH]; simpl.
  - now rewrite String.eqb_refl.
  - destruct (String.eqb k k0); try discriminate.
    intros H. now rewrite IH.
Qed.

Lemma forallb_values_dict_set (P : json -> bool) (k : string) (v : json)
  (d : dict) :
  forallb P (dict_values d) = true -> P v = true ->
  forallb P (dict_values (dict_set k v d)) = true.
Proof.
  intros Hd Hv. induction d as [|[k0 v0] d IH]; simpl in *.
  - now rewrite Hv.
  - apply andb_true_iff in Hd. destruct Hd as [H0 Hd].
    destruct (String.eqb k k0); simpl.
    + now rewrite Hv, Hd.
    + now rewrite H0, IH.
Qed.

Lemma forallb_values_dict_del (P : json -> bool) (k : string) (d : dict) :
  forallb P (dict_values d) = true ->
  forallb P (dict_values (dict_del k d)) = true.
Proof.
  intros Hd. induction d as [|[k0 v0] d IH]; simpl in *; auto.
  apply andb_true_iff in Hd. destruct Hd as [H0 Hd].
  destruct (String.eqb k k0); simpl; auto.
  now rewrite H0, IH.
Qed.

(** ** Initialization *)

Lemma initialize_database_read (st : store) (p : path) :
  read p (snd (initialize_database st)) = initialized p (read p st).
Proof.
  destruct st as [u a m c r t].
  destruct p; destruct u, a, m, c, r, t; reflexivity.
Qed.

Lemma py_slice_nil {A : Type} (start stop : Z) :
  py_slice (@nil A) start stop = [].
Proof. unfold py_slice. now rewrite skipn_nil, firstn_nil. Qed.


(** From a data directory without movies and requests documents, once
    [initialize_database] has run every query on the two collections
    returns its empty result. *)
Theorem queries_after_initialization (st : store) :
  movies_file st = Absent ->
  requests_file st = Absent ->
  (forall movie_id,
      fst (get_movie_details movie_id (snd (initialize_database st)))
      = Ok JNull)
  /\ (forall query limit,
         fst (search_movies query limit (snd (initialize_database st)))
         = Ok [])
  /\ (forall letter limit,
         fst (get_movies_by_first_letter letter limit
                (snd (initialize_database st))) = Ok [])
  /\ (forall category limit offset,
         fst (get_movies_by_category category limit offset
                (snd (initialize_database st))) = Ok [])
  /\ (forall limit offset,
         fst (get_pending_requests limit offset
                (snd (initialize_database st))) = Ok [])
  /\ fst (get_total_pending_requests_count (snd (initialize_database st)))
     = Ok 0.
Proof.
  intros Hm Hr.
  pose proof (initialize_database_read st MOVIES_FILE) as Em.
  pose proof (initialize_database_read st REQUESTS_FILE) as Er.
  cbn [read] in Em, Er. rewrite Hm in Em. rewrite Hr in Er.
  cbn [initialized default_document] in Em, Er.
  set (st' := snd (initialize_database st)) in *.
  repeat split; intros.
  - unfold get_movie_details. run_store. now rewrite Em.
  - unfold search_movies. run_store. now rewrite Em.
  - unfold get_movies_by_first_letter. run_store. now rewrite Em.
  - unfold get_movies_by_category. run_store. rewrite Em.
    destruct (String.eqb category ALL_CATEGORY); simpl;
      now rewrite py_slice_nil.
  - unfold get_pending_requests. run_store. rewrite Er. simpl.
    now rewrite py_slice_nil.
  - unfold get_total_pending_requests_count. run_store. now rewrite Er.
Qed.

(** ** Admins *)



Lemma remove_keyed_by_key (st : store) (p : path) (coll : dict)
  (identifier : string) :
  loaded (read p st) = JDict coll ->
  dict_mem identifier coll = true ->
  remove_keyed p identifier st
  = (Ok true, write p (Doc (JDict (dict_del identifier coll))) st).
Proof.
  intros Hload Hmem. unfold remove_keyed, bind. rewrite load_json_run.
  rewrite Hload. unfold lift, ret, save_json. cbn [py_contains py_delitem].
  now rewrite Hmem.
Qed.


(** Removing an admin by its identity, in a collection without repeated
    keys: the identity is then unknown to [get_admin_info], has the role
    ["user"] (["owner"] for the owner), and every other identity is looked
    up as before. *)
Theorem remove_admin_then_lookup (st : store) (admins : dict)
  (admin_id : Z) :
  loaded (admins_file st) = JDict admins ->
  distinct_keys (dict_keys admins) = true ->
  dict_mem (str_of_Z admin_id) admins = true ->
  let st' := snd (remove_admin (str_of_Z admin_id) st) in
  fst (remove_admin (str_of_Z admin_id) st) = Ok true
  /\ fst (get_admin_info admin_id st') = Ok JNull
  /\ fst (get_user_role admin_id st')
     = Ok (if admin_id =? OWNER_ID then "owner" else "user")
  /\ (forall other, other <> admin_id ->
                    fst (get_admin_info other st')
                    = fst (get_admin_info other st)).
Proof.
  intros Hload Hkeys Hmem. cbv zeta. unfold remove_admin.
  rewrite (remove_keyed_by_key st ADMINS_FILE admins) by assumption.
  cbn [fst snd]. repeat split.
  - unfold get_admin_info. run_store.
    now rewrite dict_get_del_same.
  - unfold get_user_role.
    destruct (admin_id =? OWNER_ID); [reflexivity|].
    run_store. unfold dict_mem. now rewrite dict_get_del_same.
  - intros other Hne. unfold get_admin_info. run_store.
    fold (loaded (admins_file st)). rewrite Hload. simpl.
    rewrite dict_get_del_other; [reflexivity|].
    intros E. apply str_of_Z_inj in E. contradiction.
Qed.

(** ** Channels *)




(** ** Users *)

Lemma py_eq_str_true (j : json) (s : string) :
  py_eq_str j s = true -> j = JStr s.
Proof.
  destruct j; try discriminate. simpl. intros H.
  apply String.eqb_eq in H. now subst.
Qed.

Lemma py_eq_optstr_true (j : json) (o : option string) :
  py_eq_optstr j o = true -> j = json_of_optstr o.
Proof.
  destruct o as [s|]; simpl.
  - apply py_eq_str_true.
  - now destruct j.
Qed.

Lemma py_eq_optstr_refl (o : option string) :
  py_eq_optstr (json_of_optstr o) o = true.
Proof. destruct o; simpl; [apply String.eqb_refl|reflexivity]. Qed.


(** What [add_user_if_not_exists] does on a user whose record is a dict. *)
Lemma add_user_existing_run (st : store) (users u : dict) (user_id : Z)
  (first_name : string) (username : option string) (now : string) :
  loaded (users_file st) = JDict users ->
  dict_get (str_of_Z user_id) users = Some (JDict u) ->
  let c1 :=
    py_eq_str match dict_get "first_name" u with
              | Some v => v
              | None => JNull
              end first_name in
  let u1 := if c1 then u else dict_set "first_name" (JStr first_name) u in
  let c2 :=
    py_eq_optstr match dict_get "username" u1 with
                 | Some v => v
                 | None => JNull
                 end username in
  let u2 :=
    if c2 then u1 else dict_set "username" (json_of_optstr username) u1 in
  add_user_if_not_exists user_id first_name username now st
  = (Ok false,
     if c1 && c2 then st
     else write USERS_FILE
            (Doc (JDict (dict_set (str_of_Z user_id) (JDict u2) users))) st).
Proof.
  intros Hload Hget. cbv zeta.
  unfold add_user_if_not_exists, bind. rewrite load_json_run.
  cbn [read]. rewrite Hload. unfold lift, ret, save_json.
  cbn [py_contains py_getitem]. rewrite (dict_get_mem _ _ _ Hget), Hget.
  cbn [negb py_get].
  destruct (dict_get "first_name" u) as [fn|] eqn:Efn;
    destruct (py_eq_str _ first_name) eqn:E1; cbn [negb rbind fst snd py_get py_setitem];
    match goal with
    | |- context [dict_get "username" ?x] =>
        destruct (dict_get "username" x) as [un|] eqn:Eun
    end;
    destruct (py_eq_optstr _ username) eqn:E2;
    cbn [negb rbind fst snd py_get py_setitem andb]; reflexivity.
Qed.

(** [add_user_if_not_exists] on a user already recorded returns false.
    Afterwards the record carries the given first name and handle and is
    otherwise as before, every other user is as before, and the same call
    once more returns false and writes nothing. *)
Theorem add_user_existing (st : store) (users u : dict) (user_id : Z)
  (first_name : string) (username : option string) (now : string) :
  loaded (users_file st) = JDict users ->
  dict_get (str_of_Z user_id) users = Some (JDict u) ->
  let st' :=
    snd (add_user_if_not_exists user_id first_name username now st) in
  fst (add_user_if_not_exists user_id first_name username now st) = Ok false
  /\ (exists users' u',
         loaded (users_file st') = JDict users'
         /\ dict_get (str_of_Z user_id) users' = Some (JDict u')
         /\ dict_get "first_name" u' = Some (JStr first_name)
         /\ py_get (JDict u') "username" JNull = Ok (json_of_optstr username)
         /\ (forall f, f <> "first_name" -> f <> "username" ->
                       dict_get f u' = dict_get f u)
         /\ (forall k, k <> str_of_Z user_id ->
                       dict_get k users' = dict_get k users))
  /\ (forall now',
         add_user_if_not_exists user_id first_name username now' st'
         = (Ok false, st')).
Proof.
  intros Hload Hget. cbv zeta.
  pose proof (add_user_existing_run st users u user_id first_name username
                now Hload Hget) as Hrun.
  cbv zeta in Hrun.
  set (c1 := py_eq_str match dict_get "first_name" u with
                       | Some v => v
                       | None => JNull
                       end first_name) in *.
  set (u1 := if c1 then u else dict_set "first_name" (JStr first_name) u)
    in *.
  set (c2 := py_eq_optstr match dict_get "username" u1 with
                          | Some v => v
                          | None => JNull
                          end username) in *.
  set (u2 := if c2 then u1
             else dict_set "username" (json_of_optstr username) u1) in *.
  assert (F1 : dict_get "first_name" u1 = Some (JStr first_name)).
  { subst u1. destruct c1 eqn:E1; [|apply dict_get_set_same].
    subst c1. apply py_eq_str_true in E1.
    destruct (dict_get "first_name" u); [now subst|discriminate]. }
  assert (F2 : dict_get "first_name" u2 = Some (JStr first_name)).
  { subst u2. destruct c2; [assumption|].
    now rewrite dict_get_set_other by discriminate. }
  assert (F3 : match dict_get "username" u2 with
               | Some v => v
               | None => JNull
               end = json_of_optstr username).
  { subst u2. destruct c2 eqn:E2; [|now rewrite dict_get_set_same].
    subst c2. now apply py_eq_optstr_true in E2. }
  assert (F4 : forall f, f <> "first_name" -> f <> "username" ->
                         dict_get f u2 = dict_get f u).
  { intros f H1 H2. subst u2 u1.
    destruct c2, c1; rewrite ?dict_get_set_other by assumption;
      reflexivity. }
  assert (Hst' : exists users',
             loaded (users_file
                       (snd (add_user_if_not_exists user_id first_name
                               username now st))) = JDict users'
             /\ dict_get (str_of_Z user_id) users' = Some (JDict u2)
             /\ (forall k, k <> str_of_Z user_id ->
                           dict_get k users' = dict_get k users)).
  { rewrite Hrun. cbn [snd].
    destruct (c1 && c2) eqn:E.
    - exists users. split; [assumption|]. split; [|reflexivity].
      apply andb_true_iff in E. destruct E as [E1 E2].
      subst u2 u1. now rewrite E2, E1.
    - exists (dict_set (str_of_Z user_id) (JDict u2) users).
      split; [reflexivity|]. split; [apply dict_get_set_same|].
      intros k Hk. now apply dict_get_set_other. }
  destruct Hst' as (users' & Hload' & Hget' & Hothers).
  split; [now rewrite Hrun|]. split.
  - exists users', u2. repeat split; auto.
    unfold py_get. rewrite <- F3. now destruct (dict_get "username" u2).
  - intros now'.
    rewrite (add_user_existing_run _ users' u2 user_id first_name username
               now' Hload' Hget').
    cbv zeta. rewrite F2. cbn [py_eq_str]. rewrite String.eqb_refl.
    rewrite F3, py_eq_optstr_refl. reflexivity.
Qed.

(** ** Deleting a movie and counting downloads *)

Lemma delete_movie_run (st : store) (d ms : dict) (movie_id : Z) :
  movies_file st = Doc (JDict d) ->
  dict_get "movies" d = Some (JDict ms) ->
  delete_movie movie_id st
  = if dict_mem (str_of_Z movie_id) ms
    then (Ok true,
          write MOVIES_FILE
            (Doc (JDict
                    (dict_set "movies"
                       (JDict (dict_del (str_of_Z movie_id) ms)) d))) st)
    else (Ok false, st).
Proof.
  intros Hdoc Hms. unfold delete_movie. run_store.
  rewrite Hdoc. simpl. rewrite Hms. simpl.
  destruct (dict_mem (str_of_Z movie_id) ms); reflexivity.
Qed.

Lemma get_movie_details_run (st : store) (d ms : dict) (movie_id : Z) :
  movies_file st = Doc (JDict d) ->
  dict_get "movies" d = Some (JDict ms) ->
  get_movie_details movie_id st
  = (Ok match dict_get (str_of_Z movie_id) ms with
        | Some m => m
        | None => JNull
        end, st).
Proof.
  intros Hdoc Hms. unfold get_movie_details. run_store.
  rewrite Hdoc. simpl. rewrite Hms. simpl.
  now destruct (dict_get (str_of_Z movie_id) ms).
Qed.

(** [delete_movie] on a movies collection without repeated keys.  An id
    that is no key: false, nothing written.  An id that is a key: true;
    [get_movie_details] then returns nothing for it and what it returned
    before for every other id, the counter is the same, and deleting the id
    once more returns false and writes nothing. *)
Theorem delete_movie_then_lookup (st : store) (d ms : dict) (movie_id : Z) :
  movies_file st = Doc (JDict d) ->
  dict_get "movies" d = Some (JDict ms) ->
  distinct_keys (dict_keys ms) = true ->
  (dict_mem (str_of_Z movie_id) ms = false ->
   delete_movie movie_id st = (Ok false, st))
  /\ (dict_mem (str_of_Z movie_id) ms = true ->
      let st' := snd (delete_movie movie_id st) in
      fst (delete_movie movie_id st) = Ok true
      /\ fst (get_movie_details movie_id st') = Ok JNull
      /\ (forall other, other <> movie_id ->
                        fst (get_movie_details other st')
                        = fst (get_movie_details other st))
      /\ next_id_of (movies_file st') = next_id_of (movies_file st)
      /\ delete_movie movie_id st' = (Ok false, st')).
Proof.
  intros Hdoc Hms Hkeys. split; intros Hmem.
  - now rewrite (delete_movie_run st d ms), Hmem.
  - cbv zeta. rewrite (delete_movie_run st d ms), Hmem by assumption.
    cbn [fst snd].
    set (ms' := dict_del (str_of_Z movie_id) ms).
    set (d' := dict_set "movies" (JDict ms') d).
    set (st' := write MOVIES_FILE (Doc (JDict d')) st).
    assert (Hdoc' : movies_file st' = Doc (JDict d')) by reflexivity.
    assert (Hms' : dict_get "movies" d' = Some (JDict ms'))
      by apply dict_get_set_same.
    assert (Hgone : dict_get (str_of_Z movie_id) ms' = None)
      by now apply dict_get_del_same.
    repeat split.
    + rewrite (get_movie_details_run st' d' ms') by assumption.
      now rewrite Hgone.
    + intros other Hne.
      rewrite (get_movie_details_run st' d' ms') by assumption.
      rewrite (get_movie_details_run st d ms) by assumption.
      subst ms'. rewrite dict_get_del_other; [reflexivity|].
      intros E. apply str_of_Z_inj in E. contradiction.
    + rewrite Hdoc', Hdoc. unfold next_id_of. subst d'.
      now rewrite dict_get_set_other by discriminate.
    + rewrite (delete_movie_run st' d' ms') by assumption.
      unfold dict_mem. now rewrite Hgone.
Qed.

Lemma increment_download_count_run (st : store) (d ms md : dict)
  (movie_id n : Z) :
  movies_file st = Doc (JDict d) ->
  dict_get "movies" d = Some (JDict ms) ->
  dict_get (str_of_Z movie_id) ms = Some (JDict md) ->
  as_int match dict_get "download_count" md with
         | Some c => c
         | None => JInt 0
         end = Some n ->
  increment_download_count movie_id st
  = (Ok tt,
     write MOVIES_FILE
       (Doc (JDict
               (dict_set "movies"
                  (JDict (dict_set (str_of_Z movie_id)
                            (JDict (dict_set "download_count" (JInt (n + 1))
                                      md)) ms)) d))) st).
Proof.
  intros Hdoc Hms Hm Hn. unfold increment_download_count. run_store.
  rewrite Hdoc. simpl. rewrite Hms. simpl.
  rewrite (dict_get_mem _ _ _ Hm). simpl. rewrite Hm. simpl.
  unfold py_add1.
  destruct (dict_get "download_count" md) as [c|]; simpl in Hn |- *.
  - now rewrite Hn.
  - injection Hn as <-. reflexivity.
Qed.

(** [increment_download_count] on an id that is no key of the movies
    collection returns without error and writes nothing.  On a movie whose
    count is the integer [n] (a movie without a count counts as 0) it
    stores [n + 1] under ["download_count"] and leaves the other fields of
    the movie, the other movies and the counter as they were. *)
Theorem increment_download_count_adds_one (st : store) (d ms : dict)
  (movie_id : Z) :
  movies_file st = Doc (JDict d) ->
  dict_get "movies" d = Some (JDict ms) ->
  (dict_mem (str_of_Z movie_id) ms = false ->
   increment_download_count movie_id st = (Ok tt, st))
  /\ (forall md n,
         dict_get (str_of_Z movie_id) ms = Some (JDict md) ->
         as_int match dict_get "download_count" md with
                | Some c => c
                | None => JInt 0
                end = Some n ->
         let st' := snd (increment_download_count movie_id st) in
         fst (increment_download_count movie_id st) = Ok tt
         /\ fst (get_movie_details movie_id st')
            = Ok (JDict (dict_set "download_count" (JInt (n + 1)) md))
         /\ (forall other, other <> movie_id ->
                           fst (get_movie_details other st')
                           = fst (get_movie_details other st))
         /\ next_id_of (movies_file st') = next_id_of (movies_file st)).
Proof.
  intros Hdoc Hms. split.
  - intros Hmem. unfold increment_download_count. run_store.
    rewrite Hdoc. simpl. rewrite Hms. simpl. now rewrite Hmem.
  - intros md n Hm Hn. cbv zeta.
    rewrite (increment_download_count_run st d ms md movie_id n)
      by assumption.
    cbn [fst snd].
    set (m' := JDict (dict_set "download_count" (JInt (n + 1)) md)).
    set (ms' := dict_set (str_of_Z movie_id) m' ms).
    set (d' := dict_set "movies" (JDict ms') d).
    set (st' := write MOVIES_FILE (Doc (JDict d')) st).
    assert (Hdoc' : movies_file st' = Doc (JDict d')) by reflexivity.
    assert (Hms' : dict_get "movies" d' = Some (JDict ms'))
      by apply dict_get_set_same.
    repeat split.
    + rewrite (get_movie_details_run st' d' ms') by assumption.
      subst ms'. now rewrite dict_get_set_same.
    + intros other Hne.
      rewrite (get_movie_details_run st' d' ms') by assumption.
      rewrite (get_movie_details_run st d ms) by assumption.
      subst ms'. rewrite dict_get_set_other; [reflexivity|].
      intros E. apply str_of_Z_inj in E. contradiction.
    + rewrite Hdoc', Hdoc. unfold next_id_of. subst d'.
      now rewrite dict_get_set_other by discriminate.
Qed.

(** ** Ids of movies *)

(** Two movies added one after the other get the counter and the counter
    plus one as ids, and each is then returned under its own id. *)
Theorem consecutive_movie_ids (st : store) (d ms : dict) (n : Z)
  (a b : dict) (t1 t2 : string) :
  movies_file st = Doc (JDict d) ->
  dict_get "next_id" d = Some (JInt n) ->
  dict_get "movies" d = Some (JDict ms) ->
  let st1 := snd (add_movie a t1 st) in
  let st2 := snd (add_movie b t2 st1) in
  fst (add_movie a t1 st) = Ok (JInt n)
  /\ fst (add_movie b t2 st1) = Ok (JInt (n + 1))
  /\ fst (get_movie_details n st2) = Ok (JDict (stamped a n t1))
  /\ fst (get_movie_details (n + 1) st2)
     = Ok (JDict (stamped b (n + 1) t2)).
Proof.
  intros Hdoc Hn Hms. cbv zeta.
  rewrite (add_movie_run st d ms n a t1 Hdoc Hn Hms). cbn [fst snd].
  set (ms1 := dict_set (str_of_Z n) (JDict (stamped a n t1)) ms).
  set (d1 := dict_set "next_id" (JInt (n + 1))
               (dict_set "movies" (JDict ms1) d)).
  set (st1 := write MOVIES_FILE (Doc (JDict d1)) st).
  assert (Hdoc1 : movies_file st1 = Doc (JDict d1)) by reflexivity.
  assert (Hn1 : dict_get "next_id" d1 = Some (JInt (n + 1)))
    by apply dict_get_set_same.
  assert (Hms1 : dict_get "movies" d1 = Some (JDict ms1)).
  { subst d1. rewrite dict_get_set_other by discriminate.
    apply dict_get_set_same. }
  rewrite (add_movie_run st1 d1 ms1 (n + 1) b t2 Hdoc1 Hn1 Hms1).
  cbn [fst snd].
  set (ms2 := dict_set (str_of_Z (n + 1)) (JDict (stamped b (n + 1) t2)) ms1).
  set (d2 := dict_set "next_id" (JInt (n + 1 + 1))
               (dict_set "movies" (JDict ms2) d1)).
  set (st2 := write MOVIES_FILE (Doc (JDict d2)) st1).
  assert (Hdoc2 : movies_file st2 = Doc (JDict d2)) by reflexivity.
  assert (Hms2 : dict_get "movies" d2 = Some (JDict ms2)).
  { subst d2. rewrite dict_get_set_other by discriminate.
    apply dict_get_set_same. }
  repeat split.
  - rewrite (get_movie_details_run st2 d2 ms2) by assumption.
    subst ms2 ms1. rewrite dict_get_set_other.
    + now rewrite dict_get_set_same.
    + intros E. apply str_of_Z_inj in E. lia.
  - rewrite (get_movie_details_run st2 d2 ms2) by assumption.
    subst ms2. now rewrite dict_get_set_same.
Qed.

(** The id of a deleted movie is not given out again: where the counter
    exceeds every numeric key, a movie is added under the counter [n] and
    deleted, which leaves the movies as they were before it was added; the
    next movie gets [n + 1], and nothing is returned for [n]. *)
Theorem deleted_movie_id_not_reused (st : store) (a b : dict)
  (t1 t2 : string) :
  counter_ok "movies" (movies_file st) = true ->
  exists n,
    let st1 := snd (add_movie a t1 st) in
    let st2 := snd (delete_movie n st1) in
    let st3 := snd (add_movie b t2 st2) in
    fst (add_movie a t1 st) = Ok (JInt n)
    /\ fst (delete_movie n st1) = Ok true
    /\ items_of "movies" (movies_file st2) = items_of "movies" (movies_file st)
    /\ fst (add_movie b t2 st2) = Ok (JInt (n + 1))
    /\ fst (get_movie_details n st3) = Ok JNull.
Proof.
  intros Hok.
  destruct (counter_ok_inv _ _ Hok) as (d & n & ms & Hdoc & Hn & Hms & Hb).
  exists n. cbv zeta.
  rewrite (add_movie_run st d ms n a t1 Hdoc Hn Hms). cbn [fst snd].
  pose proof (keys_below_not_mem n ms Hb) as Hfresh.
  rewrite (dict_set_absent _ _ _ Hfresh).
  set (ms1 := ms ++ [(str_of_Z n, JDict (stamped a n t1))]).
  set (d1 := dict_set "next_id" (JInt (n + 1))
               (dict_set "movies" (JDict ms1) d)).
  set (st1 := write MOVIES_FILE (Doc (JDict d1)) st).
  assert (Hdoc1 : movies_file st1 = Doc (JDict d1)) by reflexivity.
  assert (Hn1 : dict_get "next_id" d1 = Some (JInt (n + 1)))
    by apply dict_get_set_same.
  assert (Hms1 : dict_get "movies" d1 = Some (JDict ms1)).
  { subst d1. rewrite dict_get_set_other by discriminate.
    apply dict_get_set_same. }
  rewrite (delete_movie_run st1 d1 ms1) by assumption.
  assert (Hmem1 : dict_mem (str_of_Z n) ms1 = true) by apply dict_mem_mid.
  rewrite Hmem1. cbn [fst snd].
  assert (Hdel : dict_del (str_of_Z n) ms1 = ms).
  { subst ms1. rewrite dict_del_split by assumption. apply app_nil_r. }
  rewrite Hdel.
  set (d2 := dict_set "movies" (JDict ms) d1).
  set (st2 := write MOVIES_FILE (Doc (JDict d2)) st1).
  assert (Hdoc2 : movies_file st2 = Doc (JDict d2)) by reflexivity.
  assert (Hn2 : dict_get "next_id" d2 = Some (JInt (n + 1))).
  { subst d2. now rewrite dict_get_set_other by discriminate. }
  assert (Hms2 : dict_get "movies" d2 = Some (JDict ms))
    by apply dict_get_set_same.
  rewrite (add_movie_run st2 d2 ms (n + 1) b t2 Hdoc2 Hn2 Hms2).
  cbn [fst snd].
  repeat split.
  - rewrite Hdoc2, Hdoc. unfold items_of. now rewrite Hms2, Hms.
  - set (ms3 := dict_set (str_of_Z (n + 1))
                  (JDict (stamped b (n + 1) t2)) ms).
    set (d3 := dict_set "next_id" (JInt (n + 1 + 1))
                 (dict_set "movies" (JDict ms3) d2)).
    set (st3 := write MOVIES_FILE (Doc (JDict d3)) st2).
    assert (Hdoc3 : movies_file st3 = Doc (JDict d3)) by reflexivity.
    assert (Hms3 : dict_get "movies" d3 = Some (JDict ms3)).
    { subst d3. rewrite dict_get_set_other by discriminate.
      apply dict_get_set_same. }
    rewrite (get_movie_details_run st3 d3 ms3) by assumption.
    subst ms3. rewrite dict_get_set_other.
    + unfold dict_mem in Hfresh.
      now destruct (dict_get (str_of_Z n) ms).
    + intros E. apply str_of_Z_inj in E. lia.
Qed.

(** ** Scans with a limit *)

Lemma collect_until_pure (test : json -> result bool) (t : json -> bool)
  (limit : Z) (vals : list json) :
  (forall v, In v vals -> test v = Ok (t v)) ->
  forall found,
    collect_until test limit found vals
    = Ok (firstn (Z.to_nat (Z.max 1 (limit - found))) (filter t vals)).
Proof.
  induction vals as [|v vals IH]; intros Htest found; simpl.
  - now rewrite firstn_nil.
  - rewrite (Htest v) by now left. simpl.
    assert (Hrest : forall x, In x vals -> test x = Ok (t x))
      by (intros; apply Htest; now right).
    destruct (t v); [|now apply IH].
    destruct (Z.geb_spec (found + 1) limit) as [Hge|Hlt].
    + replace (Z.to_nat (Z.max 1 (limit - found))) with 1%nat by lia.
      reflexivity.
    + rewrite (IH Hrest). simpl.
      replace (Z.to_nat (Z.max 1 (limit - found)))
        with (S (Z.to_nat (Z.max 1 (limit - (found + 1))))) by lia.
      reflexivity.
Qed.

Lemma movies_values_run (st : store) (d ms : dict) :
  movies_file st = Doc (JDict d) ->
  dict_get "movies" d = Some (JDict ms) ->
  (m <- py_getitem (loaded (movies_file st)) "movies" ;; py_values m)
  = Ok (dict_values ms).
Proof. intros -> Hms. simpl. now rewrite Hms. Qed.

(** [search_movies] returns, in collection order, the first movies whose
    lowercase title contains the lowercase query: [limit] of them at most,
    but one when the limit is zero or negative and a movie matches, since
    the limit is tested after a result is appended. *)
Theorem search_movies_first_matches (st : store) (d ms : dict)
  (query : string) (limit : Z) :
  movies_file st = Doc (JDict d) ->
  dict_get "movies" d = Some (JDict ms) ->
  forallb has_text_title (dict_values ms) = true ->
  fst (search_movies query limit st)
  = Ok (firstn (scan_bound limit)
          (filter (title_matches query) (dict_values ms))).
Proof.
  intros Hdoc Hms Hwf. unfold search_movies. run_store.
  rewrite Hdoc. simpl. rewrite Hms. simpl.
  rewrite (collect_until_pure _ (title_matches query)).
  - unfold scan_bound. now rewrite Z.sub_0_r.
  - intros m Hm. rewrite forallb_forall in Hwf. specialize (Hwf m Hm).
    destruct m; try discriminate. simpl in Hwf.
    unfold title_matches, lower_title. simpl.
    destruct (dict_get "title" d0) as [[| | |s| |]|]; try discriminate;
      reflexivity.
Qed.

(** [get_movies_by_first_letter] returns, in collection order, the first
    movies whose title is not empty and starts, case put aside, with the
    letter: [limit] of them at most, but one when the limit is zero or
    negative and a movie matches. *)
Theorem get_movies_by_first_letter_first_matches (st : store) (d ms : dict)
  (letter : string) (limit : Z) :
  movies_file st = Doc (JDict d) ->
  dict_get "movies" d = Some (JDict ms) ->
  forallb has_text_title (dict_values ms) = true ->
  fst (get_movies_by_first_letter letter limit st)
  = Ok (firstn (scan_bound limit)
          (filter (starts_with_letter letter) (dict_values ms))).
Proof.
  intros Hdoc Hms Hwf. unfold get_movies_by_first_letter. run_store.
  rewrite Hdoc. simpl. rewrite Hms. simpl.
  rewrite (collect_until_pure _ (starts_with_letter letter)).
  - unfold scan_bound. now rewrite Z.sub_0_r.
  - intros m Hm. rewrite forallb_forall in Hwf. specialize (Hwf m Hm).
    destruct m; try discriminate. simpl in Hwf. simpl.
    destruct (dict_get "title" d0) as [[| | |s| |]|]; try discriminate.
    + destruct s; reflexivity.
    + reflexivity.
Qed.

(** ** Movies by uploader on other documents *)

(** [get_movies_by_uploader] returns the empty list when the movies
    document is missing or undecodable, and raises [AttributeError] on
    every movies document that carries an integer counter, for every admin
    and every limit. *)
Theorem get_movies_by_uploader_never_lists (st : store) (admin_id limit : Z) :
  (movies_file st = Absent \/ movies_file st = Garbled ->
   fst (get_movies_by_uploader admin_id limit st) = Ok [])
  /\ (forall d n,
         movies_file st = Doc (JDict d) ->
         dict_get "next_id" d = Some (JInt n) ->
         fst (get_movies_by_uploader admin_id limit st)
         = Raise AttributeError).
Proof.
  split.
  - intros H. unfold get_movies_by_uploader. run_store.
    destruct H as [H|H]; rewrite H; simpl; now rewrite py_slice_nil.
  - intros d n Hdoc Hn.
    now apply (get_movies_by_uploader_envelope_raises st d n).
Qed.

(** ** Well-formed movies *)

Lemma wf_movie_stamped (movie_data : dict) (n : Z) (now : string) :
  wf_movie (JDict movie_data) = true ->
  wf_movie (JDict (stamped movie_data n now)) = true.
Proof.
  unfold wf_movie, stamped.
  now rewrite !dict_get_set_other by discriminate.
Qed.

(** The movies the category listing is proved on stay so: when every
    movie of the collection is well formed, it is still so after
    [add_movie] of well-formed data, after [delete_movie] and after
    [increment_download_count], whether the call returns or raises. *)
Theorem movies_stay_well_formed (st : store) (d ms : dict) (n : Z) :
  movies_file st = Doc (JDict d) ->
  dict_get "next_id" d = Some (JInt n) ->
  dict_get "movies" d = Some (JDict ms) ->
  forallb wf_movie (dict_values ms) = true ->
  (forall movie_data now,
      wf_movie (JDict movie_data) = true ->
      forallb wf_movie
        (dict_values
           (items_of "movies"
              (movies_file (snd (add_movie movie_data now st))))) = true)
  /\ (forall movie_id,
         forallb wf_movie
           (dict_values
              (items_of "movies"
                 (movies_file (snd (delete_movie movie_id st))))) = true)
  /\ (forall movie_id,
         forallb wf_movie
           (dict_values
              (items_of "movies"
                 (movies_file (snd (increment_download_count movie_id st)))))
         = true).
Proof.
  intros Hdoc Hn Hms Hwf.
  assert (Hsame : forallb wf_movie
                    (dict_values (items_of "movies" (movies_file st)))
                  = true).
  { rewrite Hdoc. unfold items_of. now rewrite Hms. }
  assert (Hset : forall ms',
             forallb wf_movie (dict_values ms') = true ->
             forallb wf_movie
               (dict_values
                  (items_of "movies"
                     (Doc (JDict (dict_set "movies" (JDict ms') d)))))
             = true).
  { intros ms' H. unfold items_of. now rewrite dict_get_set_same. }
  split; [|split].
  - intros movie_data now Hdata.
    rewrite (add_movie_run st d ms n movie_data now Hdoc Hn Hms).
    cbn [snd]. simpl movies_file. unfold items_of.
    rewrite dict_get_set_other by discriminate.
    rewrite dict_get_set_same.
    apply forallb_values_dict_set; [assumption|].
    now apply wf_movie_stamped.
  - intros movie_id. rewrite (delete_movie_run st d ms) by assumption.
    destruct (dict_mem (str_of_Z movie_id) ms); cbn [snd]; [|assumption].
    simpl movies_file. apply Hset. now apply forallb_values_dict_del.
  - intros movie_id. unfold increment_download_count. run_store.
    rewrite Hdoc. simpl. rewrite Hms. simpl.
    destruct (dict_mem (str_of_Z movie_id) ms) eqn:E; simpl;
      [|assumption].
    destruct (dict_get (str_of_Z movie_id) ms) as [m|] eqn:Em; simpl;
      [|assumption].
    destruct m as [| | | | |md]; simpl; try assumption.
    destruct (dict_get "download_count" md) as [c|]; simpl;
      try match goal with
          | |- context [py_add1 ?c] => destruct (py_add1 c) as [c'|e]
          end; simpl; try assumption;
      apply Hset.
    all: apply forallb_values_dict_set; [assumption|].
    all: assert (Hm : wf_movie (JDict md) = true)
      by (rewrite forallb_forall in Hwf; apply Hwf;
          eapply dict_get_In_values; eauto).
    all: unfold wf_movie in *.
    all: now rewrite !dict_get_set_other by discriminate.
Qed.

(** ** Counting and updating requests *)

Lemma count_pending_pure (vals : list json) :
  forallb is_dict vals = true ->
  forall count,
    count_pending vals count
    = Ok (count + Z.of_nat (List.length (filter is_pending vals))).
Proof.
  induction vals as [|r vals IH]; simpl; intros Hd count.
  - now rewrite Z.add_0_r.
  - apply andb_true_iff in Hd. destruct Hd as [Hr Hd].
    destruct r; try discriminate. simpl.
    destruct (dict_get "status" d) as [s|]; simpl.
    + rewrite (IH Hd). destruct (py_eq_str s "pending"); simpl; f_equal; lia.
    + now rewrite (IH Hd).
Qed.

Lemma wf_request_is_dict (vals : list json) :
  forallb wf_request vals = true -> forallb is_dict vals = true.
Proof.
  rewrite !forallb_forall. intros H r Hr. specialize (H r Hr).
  now destruct r.
Qed.

(** [get_total_pending_requests_count] is the number of requests of
    status ["pending"], and it is the length of what
    [get_pending_requests] lists from offset 0 once the limit reaches that
    number. *)
Theorem pending_count_matches_listing (st : store) (reqs rs users : dict) :
  requests_file st = Doc (JDict reqs) ->
  dict_get "requests" reqs = Some (JDict rs) ->
  forallb wf_request (dict_values rs) = true ->
  loaded (users_file st) = JDict users ->
  fst (get_total_pending_requests_count st)
  = Ok (Z.of_nat (List.length (filter is_pending (dict_values rs))))
  /\ (forall limit : nat,
         (List.length (filter is_pending (dict_values rs)) <= limit)%nat ->
         exists l,
           fst (get_pending_requests (Z.of_nat limit) 0 st) = Ok l
           /\ List.length l
              = List.length (filter is_pending (dict_values rs))).
Proof.
  intros Hdoc Hrs Hwf Husers. split.
  - unfold get_total_pending_requests_count. run_store.
    rewrite Hdoc. simpl. rewrite Hrs. simpl.
    rewrite count_pending_pure by now apply wf_request_is_dict.
    reflexivity.
  - intros limit Hlimit.
    exists (newest_pending users rs).
    assert (Hlen : List.length (newest_pending users rs)
                   = List.length (filter is_pending (dict_values rs))).
    { rewrite (Permutation_length (newest_pending_perm users rs)).
      apply length_map. }
    split; [|assumption].
    rewrite (get_pending_requests_run st reqs rs users) by assumption.
    cbn [fst]. change 0 with (Z.of_nat 0). rewrite py_slice_page.
    cbn [skipn]. rewrite firstn_all2; [reflexivity|lia].
Qed.

Lemma update_request_status_run (st : store) (d rs r : dict)
  (request_id : Z) (status now : string) :
  requests_file st = Doc (JDict d) ->
  dict_get "requests" d = Some (JDict rs) ->
  dict_get (str_of_Z request_id) rs = Some (JDict r) ->
  let r' :=
    JDict (dict_set "updated_at" (JStr now)
             (dict_set "status" (JStr status) r)) in
  update_request_status request_id status now st
  = (Ok r',
     write REQUESTS_FILE
       (Doc (JDict (dict_set "requests"
                      (JDict (dict_set (str_of_Z request_id) r' rs)) d)))
       st).
Proof.
  intros Hdoc Hrs Hr. cbv zeta. unfold update_request_status. run_store.
  rewrite Hdoc. simpl. rewrite Hrs. simpl.
  rewrite (dict_get_mem _ _ _ Hr). simpl. now rewrite Hr.
Qed.

(** [update_request_status] on an id that is no key of the requests
    collection returns nothing and writes nothing.  On a request it
    returns the updated record: the status and the update time under
    ["status"] and ["updated_at"], every other field as it was; the record
    is stored under the id, and the other requests and the counter are as
    before. *)
Theorem update_request_status_record (st : store) (d rs : dict)
  (request_id : Z) (status now : string) :
  requests_file st = Doc (JDict d) ->
  dict_get "requests" d = Some (JDict rs) ->
  (dict_mem (str_of_Z request_id) rs = false ->
   update_request_status request_id status now st = (Ok JNull, st))
  /\ (forall r,
         dict_get (str_of_Z request_id) rs = Some (JDict r) ->
         let st' := snd (update_request_status request_id status now st) in
         exists r',
           fst (update_request_status request_id status now st)
           = Ok (JDict r')
           /\ dict_get "status" r' = Some (JStr status)
           /\ dict_get "updated_at" r' = Some (JStr now)
           /\ (forall f, f <> "status" -> f <> "updated_at" ->
                         dict_get f r' = dict_get f r)
           /\ dict_get (str_of_Z request_id)
                (items_of "requests" (requests_file st'))
              = Some (JDict r')
           /\ (forall k, k <> str_of_Z request_id ->
                         dict_get k (items_of "requests" (requests_file st'))
                         = dict_get k rs)
           /\ next_id_of (requests_file st') = next_id_of (requests_file st)).
Proof.
  intros Hdoc Hrs. split.
  - intros Hmem. unfold update_request_status. run_store.
    rewrite Hdoc. simpl. rewrite Hrs. simpl. now rewrite Hmem.
  - intros r Hr. cbv zeta.
    rewrite (update_request_status_run st d rs r request_id status now)
      by assumption.
    cbn [fst snd]. simpl requests_file.
    exists (dict_set "updated_at" (JStr now)
              (dict_set "status" (JStr status) r)).
    unfold items_of, next_id_of. rewrite Hdoc.
    rewrite (dict_get_set_same "requests").
    rewrite (dict_get_set_other "next_id" "requests") by discriminate.
    split; [reflexivity|]. split.
    { rewrite dict_get_set_other by discriminate. apply dict_get_set_same. }
    split; [apply dict_get_set_same|]. split.
    { intros f H1 H2. now rewrite !dict_get_set_other. }
    split; [apply dict_get_set_same|]. split; [|reflexivity].
    intros k Hk. now apply dict_get_set_other.
Qed.

Lemma dict_values_app (l1 l2 : dict) :
  dict_values (l1 ++ l2) = dict_values l1 ++ dict_values l2.
Proof. apply map_app. Qed.

(** Once a pending request is given a status other than ["pending"], the
    count of pending requests is one less. *)
Theorem update_request_status_lowers_count (st : store) (d rs r : dict)
  (request_id : Z) (status now : string) :
  requests_file st = Doc (JDict d) ->
  dict_get "requests" d = Some (JDict rs) ->
  forallb is_dict (dict_values rs) = true ->
  dict_get (str_of_Z request_id) rs = Some (JDict r) ->
  is_pending (JDict r) = true ->
  status <> "pending" ->
  exists count,
    fst (get_total_pending_requests_count st) = Ok count
    /\ fst (get_total_pending_requests_count
              (snd (update_request_status request_id status now st)))
       = Ok (count - 1).
Proof.
  intros Hdoc Hrs Hdicts Hr Hpending Hstatus.
  rewrite (update_request_status_run st d rs r request_id status now)
    by assumption.
  cbn [snd].
  destruct (dict_get_split _ _ _ Hr) as (l1 & l2 & -> & Hl1).
  rewrite dict_set_split by assumption.
  exists (Z.of_nat (List.length
                      (filter is_pending
                         (dict_values (l1 ++ (str_of_Z request_id, JDict r)
                                          :: l2))))).
  split.
  - unfold get_total_pending_requests_count. run_store.
    rewrite Hdoc. simpl. rewrite Hrs. simpl.
    now rewrite count_pending_pure.
  - unfold get_total_pending_requests_count. run_store.
    rewrite dict_get_set_same. simpl.
    rewrite dict_values_app in Hdicts |- *. simpl in Hdicts |- *.
    rewrite forallb_app in Hdicts. simpl in Hdicts.
    rewrite count_pending_pure.
    + rewrite dict_values_app. simpl dict_values.
      rewrite !filter_app. cbn [filter]. rewrite Hpending.
      assert (Hnew : is_pending
                       (JDict (dict_set "updated_at" (JStr now)
                                 (dict_set "status" (JStr status) r)))
                     = false).
      { unfold is_pending.
        rewrite dict_get_set_other by discriminate.
        rewrite dict_get_set_same. simpl.
        now apply String.eqb_neq. }
      rewrite Hnew. rewrite !length_app. simpl. f_equal. lia.
    + rewrite forallb_app. simpl.
      apply andb_true_iff in Hdicts. destruct Hdicts as [H1 H2].
      now rewrite H1, H2.
Qed.

(** ** A new request *)

Lemma insert_sorted_last {A : Type} (ltb : A -> A -> bool) (x : A)
  (l : list A) :
  Forall (fun y => ltb y x = true) l -> insert_sorted ltb x l = l ++ [x].
Proof.
  induction 1 as [|y l Hy Hl IH]; simpl; [reflexivity|].
  now rewrite Hy, IH.
Qed.

Lemma dict_get_In (k : string) (v : json) (d : dict) :
  dict_get k d = Some v -> In (k, v) d.
Proof.
  induction d as [|[k0 v0] d IH]; simpl; [discriminate|].
  destruct (String.eqb k k0) eqn:E.
  - intros H. injection H as ->. apply String.eqb_eq in E. subst. now left.
  - intros H. right. now apply IH.
Qed.

(** In a well-formed collection under a counter that exceeds its keys,
    every request id is below the counter. *)
Lemma request_ids_below (n : Z) (rs : dict) (r : json) :
  wf_requests rs = true -> keys_below n rs = true ->
  In r (dict_values rs) -> request_id_of r < n.
Proof.
  intros Hwf Hb Hin.
  apply andb_true_iff in Hwf. destruct Hwf as [_ Hwf].
  apply in_map_iff in Hin. destruct Hin as [[k r'] [E Hin]].
  simpl in E. subst r'.
  rewrite forallb_forall in Hwf. specialize (Hwf _ Hin). simpl in Hwf.
  apply andb_true_iff in Hwf. destruct Hwf as [_ Hk].
  apply String.eqb_eq in Hk.
  unfold keys_below in Hb. rewrite forallb_forall in Hb.
  assert (Hkin : In k (dict_keys rs)).
  { apply in_map_iff. exists (k, r). now split. }
  specialize (Hb k Hkin). rewrite Hk, numeric_key_str_of_Z in Hb.
  now apply Z.ltb_lt in Hb.
Qed.

Lemma newest_pending_after_request (users rs : dict) (n user_id : Z)
  (movie_name now : string) :
  wf_requests rs = true -> keys_below n rs = true ->
  newest_pending users
    (rs ++ [(str_of_Z n, request_entry n user_id movie_name now)])
  = with_user users (request_entry n user_id movie_name now)
      :: newest_pending users rs.
Proof.
  intros Hwf Hb. unfold newest_pending.
  rewrite dict_values_app, filter_app, map_app, rev_app_distr.
  cbn [dict_values map snd filter app rev].
  change (is_pending (request_entry n user_id movie_name now)) with true.
  cbn [map rev app stable_sort].
  rewrite insert_sorted_last; [now rewrite rev_app_distr|].
  eapply Permutation_Forall; [apply stable_sort_perm|].
  apply Forall_forall. intros y Hy.
  apply in_rev, in_map_iff in Hy. destruct Hy as [r [<- Hr]].
  apply filter_In in Hr. destruct Hr as [Hr _].
  rewrite !request_id_with_user.
  apply Z.ltb_lt.
  change (request_id_of (request_entry n user_id movie_name now)) with n.
  now apply (request_ids_below n rs).
Qed.

(** A request just added comes first in the listing of pending requests:
    where the records are keyed by their ids and the counter exceeds every
    key, the listing after [add_movie_request] is the new request, with
    its user record attached, followed by the listing as it was. *)
Theorem new_request_listed_first (st : store) (d rs users : dict) (n : Z)
  (user_id : Z) (movie_name now : string) :
  requests_file st = Doc (JDict d) ->
  dict_get "next_id" d = Some (JInt n) ->
  dict_get "requests" d = Some (JDict rs) ->
  keys_below n rs = true ->
  wf_requests rs = true ->
  loaded (users_file st) = JDict users ->
  let st' := snd (add_movie_request user_id movie_name now st) in
  let entry := with_user users (request_entry n user_id movie_name now) in
  (forall limit offset : Z,
      fst (get_pending_requests limit offset st')
      = Ok (py_slice (entry :: newest_pending users rs) offset
              (offset + limit)))
  /\ (forall limit : nat,
         fst (get_pending_requests (Z.of_nat (S limit)) 0 st')
         = Ok (entry :: firstn limit (newest_pending users rs))).
Proof.
  intros Hdoc Hn Hrs Hb Hwf Husers. cbv zeta.
  rewrite (add_movie_request_run st d rs n user_id movie_name now
             Hdoc Hn Hrs).
  cbn [snd].
  rewrite (dict_set_absent _ _ _ (keys_below_not_mem n rs Hb)).
  fold (request_entry n user_id movie_name now).
  set (rs' := rs ++ [(str_of_Z n, request_entry n user_id movie_name now)]).
  set (d' := dict_set "next_id" (JInt (n + 1))
               (dict_set "requests" (JDict rs') d)).
  set (st' := write REQUESTS_FILE (Doc (JDict d')) st).
  assert (Hrun : forall limit offset,
             get_pending_requests limit offset st'
             = (Ok (py_slice (newest_pending users rs') offset
                      (offset + limit)), st')).
  { intros limit offset.
    apply (get_pending_requests_run st' d' rs' users).
    - reflexivity.
    - subst d'. rewrite dict_get_set_other by discriminate.
      apply dict_get_set_same.
    - subst rs'. rewrite dict_values_app, forallb_app.
      rewrite (wf_requests_records rs Hwf). reflexivity.
    - exact Husers. }
  assert (Hnew : newest_pending users rs'
                 = with_user users (request_entry n user_id movie_name now)
                     :: newest_pending users rs)
    by now apply newest_pending_after_request.
  split.
  - intros limit offset. now rewrite Hrun, Hnew.
  - intros limit. rewrite Hrun, Hnew. cbn [fst].
    change 0 with (Z.of_nat 0). now rewrite py_slice_page.
Qed.

(** ** Well-formed requests *)

Lemma distinct_keys_snoc (ks : list string) (k : string) :
  distinct_keys ks = true -> existsb (String.eqb k) ks = false ->
  distinct_keys (ks ++ [k]) = true.
Proof.
  induction ks as [|k0 ks IH]; simpl; [reflexivity|].
  intros H Hk. apply andb_true_iff in H. destruct H as [H1 H2].
  apply orb_false_iff in Hk. destruct Hk as [Hk0 Hk].
  rewrite (IH H2 Hk), andb_true_r.
  rewrite existsb_app. simpl.
  apply negb_true_iff in H1. rewrite H1. simpl.
  rewrite String.eqb_sym, Hk0. reflexivity.
Qed.

Lemma distinct_keys_dict_set (k : string) (v : json) (d : dict) :
  distinct_keys (dict_keys d) = true ->
  distinct_keys (dict_keys (dict_set k v d)) = true.
Proof.
  intros H. destruct (dict_mem k d) eqn:E.
  - now rewrite dict_keys_set_present.
  - rewrite dict_keys_set_absent by assumption.
    apply distinct_keys_snoc; [assumption|]. now rewrite <- dict_mem_keys.
Qed.

Lemma forallb_dict_set (Q : string * json -> bool) (k : string) (v : json)
  (d : dict) :
  forallb Q d = true -> Q (k, v) = true ->
  forallb Q (dict_set k v d) = true.
Proof.
  intros Hd Hv. induction d as [|[k0 v0] d IH]; simpl in *.
  - now rewrite Hv.
  - apply andb_true_iff in Hd. destruct Hd as [H0 Hd].
    destruct (String.eqb k k0) eqn:E; simpl.
    + apply String.eqb_eq in E. subst k0. now rewrite Hv, Hd.
    + now rewrite H0, IH.
Qed.

(** The requests collection the listing is proved on stays so: where the
    records are keyed by their own ids, without repeated key, they still
    are after [add_movie_request] and after [update_request_status]. *)
Theorem requests_stay_well_formed (st : store) (d rs : dict) (n : Z) :
  requests_file st = Doc (JDict d) ->
  dict_get "next_id" d = Some (JInt n) ->
  dict_get "requests" d = Some (JDict rs) ->
  wf_requests rs = true ->
  (forall user_id movie_name now,
      wf_requests
        (items_of "requests"
           (requests_file
              (snd (add_movie_request user_id movie_name now st)))) = true)
  /\ (forall request_id status now,
         wf_requests
           (items_of "requests"
              (requests_file
                 (snd (update_request_status request_id status now st))))
         = true).
Proof.
  intros Hdoc Hn Hrs Hwf.
  pose proof Hwf as Hwf0.
  apply andb_true_iff in Hwf. destruct Hwf as [Hkeys Hrec].
  split.
  - intros user_id movie_name now.
    rewrite (add_movie_request_run st d rs n user_id movie_name now
               Hdoc Hn Hrs).
    cbn [snd]. simpl requests_file. unfold items_of.
    rewrite dict_get_set_other by discriminate.
    rewrite dict_get_set_same.
    unfold wf_requests. apply andb_true_iff. split.
    + now apply distinct_keys_dict_set.
    + apply forallb_dict_set; [assumption|].
      simpl. apply String.eqb_refl.
  - intros request_id status now.
    destruct (dict_get (str_of_Z request_id) rs) as [r|] eqn:Hr.
    + assert (Hq : wf_request r = true
                   /\ str_of_Z request_id = str_of_Z (request_id_of r)).
      { rewrite forallb_forall in Hrec.
        specialize (Hrec _ (dict_get_In _ _ _ Hr)). simpl in Hrec.
        apply andb_true_iff in Hrec. destruct Hrec as [H1 H2].
        now apply String.eqb_eq in H2. }
      destruct Hq as [Hwr Hkey].
      destruct r as [| | | | |r]; try discriminate.
      rewrite (update_request_status_run st d rs r request_id status now)
        by assumption.
      cbn [snd]. simpl requests_file. unfold items_of.
      rewrite dict_get_set_same.
      unfold wf_requests. apply andb_true_iff. split.
      * now apply distinct_keys_dict_set.
      * apply forallb_dict_set; [assumption|].
        cbn [fst snd]. unfold wf_request, request_id_of in *.
        rewrite !dict_get_set_other by discriminate.
        rewrite Hwr. simpl. rewrite Hkey at 1.
        unfold request_id_of. apply String.eqb_refl.
    + unfold update_request_status. run_store.
      rewrite Hdoc. simpl. rewrite Hrs. simpl.
      unfold dict_mem. rewrite Hr. simpl.
      rewrite Hdoc. unfold items_of. now rewrite Hrs.
Qed.

End Store.

(** * The properties on the demo store *)

Lemma get_movies_by_category_sorted_slice_witness :
  movies_file demo_store = Doc (JDict demo_movies_doc)
  /\ dict_get "movies" demo_movies_doc = Some (JDict demo_movies)
  /\ forallb wf_movie (dict_values demo_movies) = true
  /\ get_movies_by_category ascii_lower "Action" 2 0 demo_store
     = (Ok (firstn 2 (skipn 0
              (sorted_matches ascii_lower "Action" demo_movies))),
        demo_store).
Proof.
  do 3 (split; [reflexivity|]).
  exact (proj2 (proj2 (proj2 (proj2
           (get_movies_by_category_sorted_slice ascii_lower demo_store
              demo_movies_doc demo_movies "Action"
              eq_refl eq_refl eq_refl)))) 2%nat 0%nat).
Defined.

Lemma pages_rebuild_sorted_matches_witness :
  movies_file demo_store = Doc (JDict demo_movies_doc)
  /\ dict_get "movies" demo_movies_doc = Some (JDict demo_movies)
  /\ forallb wf_movie (dict_values demo_movies) = true
  /\ 0 < 2
  /\ (List.length (matching "Action" demo_movies) < 4)%nat
  /\ all_pages ascii_lower 4 "Action" 2 0 demo_store
     = Some (sorted_matches ascii_lower "Action" demo_movies).
Proof.
  assert (H : (List.length (matching "Action" demo_movies) < 4)%nat)
    by (simpl; lia).
  do 3 (split; [reflexivity|]). split; [lia|]. split; [assumption|].
  apply (pages_rebuild_sorted_matches ascii_lower demo_store
           demo_movies_doc demo_movies "Action" 2 4);
    try reflexivity; assumption.
Defined.

Lemma get_pending_requests_newest_first_witness :
  requests_file demo_store = Doc (JDict demo_requests_doc)
  /\ dict_get "requests" demo_requests_doc = Some (JDict demo_requests)
  /\ wf_requests demo_requests = true
  /\ loaded (users_file demo_store) = JDict demo_users
  /\ get_pending_requests plain_repr 10 0 demo_store
     = (Ok (firstn 10 (skipn 0
              (newest_pending plain_repr demo_users demo_requests))),
        demo_store).
Proof.
  do 4 (split; [reflexivity|]).
  exact (proj2 (proj2 (proj2 (proj2 (proj2
           (get_pending_requests_newest_first plain_repr demo_store
              demo_requests_doc demo_requests demo_users
              eq_refl eq_refl eq_refl eq_refl))))) 10%nat 0%nat).
Defined.

Lemma counters_exceed_keys_witness :
  counter_ok "movies" (movies_file demo_store) = true
  /\ counter_ok "requests" (requests_file demo_store) = true
  /\ counter_ok "movies"
       (movies_file
          (after ascii_lower ascii_upper plain_repr (DeleteMovie 2)
             demo_store)) = true.
Proof.
  do 2 (split; [reflexivity|]).
  exact (proj1 (proj2 (proj2
           (counters_exceed_keys ascii_lower ascii_upper plain_repr
              demo_store eq_refl eq_refl)) (DeleteMovie 2))).
Defined.

Lemma add_movie_then_get_movie_witness :
  movies_file demo_store = Doc (JDict demo_movies_doc)
  /\ dict_get "next_id" demo_movies_doc = Some (JInt 4)
  /\ dict_get "movies" demo_movies_doc = Some (JDict demo_movies)
  /\ fst (get_movie_details 4
            (snd (add_movie plain_repr [("title", JStr "Nova")]
                    "2024-06-01T10:00:00" demo_store)))
     = Ok (JDict (stamped [("title", JStr "Nova")] 4
                    "2024-06-01T10:00:00")).
Proof.
  do 3 (split; [reflexivity|]).
  exact (proj1 (proj2
           (add_movie_then_get_movie plain_repr demo_store demo_movies_doc
              demo_movies 4 [("title", JStr "Nova")] "2024-06-01T10:00:00"
              eq_refl eq_refl eq_refl))).
Defined.

Lemma get_user_role_precedence_witness :
  loaded (admins_file demo_store) = JDict demo_admins
  /\ get_user_role 12 demo_store = (Ok "admin", demo_store)
  /\ get_user_role OWNER_ID demo_store = (Ok "owner", demo_store).
Proof.
  split; [reflexivity|]. split.
  - exact (get_user_role_precedence demo_store demo_admins 12 eq_refl).
  - exact (get_user_role_precedence demo_store demo_admins OWNER_ID eq_refl).
Defined.

Lemma remove_by_identity_or_short_name_witness :
  loaded (read ADMINS_FILE demo_store) = JDict demo_admins
  /\ wf_keyed demo_admins = true
  /\ dict_mem "sam" demo_admins = false
  /\ remove_admin "sam" demo_store
     = (Ok true,
        write ADMINS_FILE
          (Doc (JDict (firstn 1 demo_admins ++ skipn 2 demo_admins)))
          demo_store).
Proof.
  do 3 (split; [reflexivity|]).
  exact (proj1 (proj2
           (remove_by_identity_or_short_name demo_store ADMINS_FILE
              remove_admin demo_admins "sam"
              (or_introl (conj eq_refl eq_refl)) eq_refl eq_refl))
           (firstn 1 demo_admins) "12"
           (JDict [("user_id", JInt 12); ("short_name", JStr "sam");
                   ("first_name", JStr "Sam"); ("username", JNull);
                   ("added_at", JStr "2024-03-02T08:00:00")])
           (skipn 2 demo_admins) eq_refl eq_refl eq_refl eq_refl).
Defined.

(** * Two runs from an empty data directory *)

(** Movies titled Zeta, Alpha and Mango, all tagged Action, are added in
    that order; the first page of two holds Alpha and Mango, the page at
    offset 2 holds Zeta. *)
Example category_pages_run :
  let tagged title :=
    [("title", JStr title); ("categories", JList [JStr "Action"])] in
  let st0 := snd (initialize_database no_files) in
  let st1 := snd (add_movie plain_repr (tagged "Zeta") "t1" st0) in
  let st2 := snd (add_movie plain_repr (tagged "Alpha") "t2" st1) in
  let st3 := snd (add_movie plain_repr (tagged "Mango") "t3" st2) in
  let titles r :=
    l <- r ;; map_result (fun m => py_getitem m "title") l in
  titles (fst (get_movies_by_category ascii_lower "Action" 2 0 st3))
  = Ok [JStr "Alpha"; JStr "Mango"]
  /\ titles (fst (get_movies_by_category ascii_lower "Action" 2 2 st3))
     = Ok [JStr "Zeta"].
Proof. split; reflexivity. Qed.

(** User 42 asks for Inception, then user 7 for Dune; the pending requests
    list Dune's request before Inception's. *)
Example pending_requests_run :
  let st0 := snd (initialize_database no_files) in
  let st1 := snd (add_movie_request plain_repr 42 "Inception" "t1" st0) in
  let st2 := snd (add_movie_request plain_repr 7 "Dune" "t2" st1) in
  (l <- fst (get_pending_requests plain_repr 10 0 st2) ;;
   map_result (fun r => py_getitem r "movie_name") l)
  = Ok [JStr "Dune"; JStr "Inception"].
Proof. reflexivity. Qed.

(** * The further properties on concrete stores *)

Lemma queries_after_initialization_witness :
  movies_file no_files = Absent
  /\ requests_file no_files = Absent
  /\ fst (get_total_pending_requests_count
            (snd (initialize_database no_files))) = Ok 0.
Proof.
  do 2 (split; [reflexivity|]).
  exact (proj2 (proj2 (proj2 (proj2 (proj2
           (queries_after_initialization ascii_lower ascii_upper plain_repr
              no_files eq_refl eq_refl)))))).
Defined.



Lemma remove_admin_then_lookup_witness :
  loaded (admins_file demo_store) = JDict demo_admins
  /\ distinct_keys (dict_keys demo_admins) = true
  /\ dict_mem (str_of_Z 12) demo_admins = true
  /\ fst (get_user_role 12 (snd (remove_admin (str_of_Z 12) demo_store)))
     = Ok "user".
Proof.
  do 3 (split; [reflexivity|]).
  exact (proj1 (proj2 (proj2
           (remove_admin_then_lookup demo_store demo_admins 12
              eq_refl eq_refl eq_refl)))).
Defined.




Lemma add_user_existing_witness :
  loaded (users_file demo_store) = JDict demo_users
  /\ dict_get (str_of_Z 42) demo_users
     = Some (JDict [("user_id", JInt 42); ("first_name", JStr "Bob");
                    ("username", JNull);
                    ("joined_at", JStr "2024-04-01T09:00:00");
                    ("is_active", JBool true)])
  /\ fst (add_user_if_not_exists 42 "Robert" (Some "rob")
            "2024-06-01T08:00:00" demo_store)
     = Ok false.
Proof.
  do 2 (split; [reflexivity|]).
  exact (proj1
           (add_user_existing demo_store demo_users
              [("user_id", JInt 42); ("first_name", JStr "Bob");
               ("username", JNull);
               ("joined_at", JStr "2024-04-01T09:00:00");
               ("is_active", JBool true)]
              42 "Robert" (Some "rob") "2024-06-01T08:00:00"
              eq_refl eq_refl)).
Defined.

Lemma delete_movie_then_lookup_witness :
  movies_file demo_store = Doc (JDict demo_movies_doc)
  /\ dict_get "movies" demo_movies_doc = Some (JDict demo_movies)
  /\ distinct_keys (dict_keys demo_movies) = true
  /\ dict_mem (str_of_Z 2) demo_movies = true
  /\ fst (get_movie_details 2 (snd (delete_movie 2 demo_store))) = Ok JNull.
Proof.
  do 4 (split; [reflexivity|]).
  exact (proj1 (proj2
           (proj2 (delete_movie_then_lookup demo_store demo_movies_doc
                     demo_movies 2 eq_refl eq_refl eq_refl) eq_refl))).
Defined.

Lemma increment_download_count_adds_one_witness :
  movies_file demo_store = Doc (JDict demo_movies_doc)
  /\ dict_get "movies" demo_movies_doc = Some (JDict demo_movies)
  /\ dict_mem (str_of_Z 9) demo_movies = false
  /\ increment_download_count 9 demo_store = (Ok tt, demo_store)
  /\ fst (get_movie_details 2 (snd (increment_download_count 2 demo_store)))
     = Ok (JDict
             (dict_set "download_count" (JInt (3 + 1))
                [("title", JStr "Alpha");
                 ("categories", JList [JStr "Action"; JStr "Comedy"]);
                 ("added_by", JInt 7); ("movie_id", JInt 2);
                 ("added_at", JStr "2024-05-02T10:00:00");
                 ("download_count", JInt 3)])).
Proof.
  do 3 (split; [reflexivity|]). split.
  - exact (proj1 (increment_download_count_adds_one demo_store
                    demo_movies_doc demo_movies 9 eq_refl eq_refl) eq_refl).
  - exact (proj1 (proj2
             (proj2 (increment_download_count_adds_one demo_store
                       demo_movies_doc demo_movies 2 eq_refl eq_refl)
                _ 3 eq_refl eq_refl))).
Defined.

Lemma consecutive_movie_ids_witness :
  movies_file demo_store = Doc (JDict demo_movies_doc)
  /\ dict_get "next_id" demo_movies_doc = Some (JInt 4)
  /\ dict_get "movies" demo_movies_doc = Some (JDict demo_movies)
  /\ fst (add_movie plain_repr [("title", JStr "Nova")] "t2"
            (snd (add_movie plain_repr [("title", JStr "Luna")] "t1"
                    demo_store)))
     = Ok (JInt (4 + 1)).
Proof.
  do 3 (split; [reflexivity|]).
  exact (proj1 (proj2
           (consecutive_movie_ids plain_repr demo_store demo_movies_doc
              demo_movies 4 [("title", JStr "Luna")]
              [("title", JStr "Nova")] "t1" "t2" eq_refl eq_refl eq_refl))).
Defined.

Lemma deleted_movie_id_not_reused_witness :
  counter_ok "movies" (movies_file demo_store) = true
  /\ exists n,
       fst (add_movie plain_repr [("title", JStr "Luna")] "t1" demo_store)
       = Ok (JInt n)
       /\ fst (add_movie plain_repr [("title", JStr "Nova")] "t2"
                 (snd (delete_movie n
                         (snd (add_movie plain_repr [("title", JStr "Luna")]
                                 "t1" demo_store)))))
          = Ok (JInt (n + 1)).
Proof.
  split; [reflexivity|].
  pose proof (deleted_movie_id_not_reused plain_repr demo_store
                [("title", JStr "Luna")] [("title", JStr "Nova")]
                "t1" "t2" eq_refl) as H.
  cbv zeta in H. destruct H as (n & H1 & _ & _ & H4 & _).
  exists n. split; assumption.
Defined.

Lemma search_movies_first_matches_witness :
  movies_file demo_store = Doc (JDict demo_movies_doc)
  /\ dict_get "movies" demo_movies_doc = Some (JDict demo_movies)
  /\ forallb has_text_title (dict_values demo_movies) = true
  /\ fst (search_movies ascii_lower "A" 0 demo_store)
     = Ok (firstn (scan_bound 0)
             (filter (title_matches ascii_lower "A")
                (dict_values demo_movies))).
Proof.
  do 3 (split; [reflexivity|]).
  exact (search_movies_first_matches ascii_lower demo_store demo_movies_doc
           demo_movies "A" 0 eq_refl eq_refl eq_refl).
Defined.

Lemma get_movies_by_first_letter_first_matches_witness :
  movies_file demo_store = Doc (JDict demo_movies_doc)
  /\ dict_get "movies" demo_movies_doc = Some (JDict demo_movies)
  /\ forallb has_text_title (dict_values demo_movies) = true
  /\ fst (get_movies_by_first_letter ascii_upper "m" 30 demo_store)
     = Ok (firstn (scan_bound 30)
             (filter (starts_with_letter ascii_upper "m")
                (dict_values demo_movies))).
Proof.
  do 3 (split; [reflexivity|]).
  exact (get_movies_by_first_letter_first_matches ascii_upper demo_store
           demo_movies_doc demo_movies "m" 30 eq_refl eq_refl eq_refl).
Defined.

Lemma get_movies_by_uploader_never_lists_witness :
  movies_file no_files = Absent
  /\ fst (get_movies_by_uploader 7 30 no_files) = Ok []
  /\ movies_file demo_store = Doc (JDict demo_movies_doc)
  /\ dict_get "next_id" demo_movies_doc = Some (JInt 4)
  /\ fst (get_movies_by_uploader 9 30 demo_store) = Raise AttributeError.
Proof.
  split; [reflexivity|]. split.
  - exact (proj1 (get_movies_by_uploader_never_lists no_files 7 30)
             (or_introl eq_refl)).
  - do 2 (split; [reflexivity|]).
    exact (proj2 (get_movies_by_uploader_never_lists demo_store 9 30)
             demo_movies_doc 4 eq_refl eq_refl).
Defined.

Lemma movies_stay_well_formed_witness :
  movies_file demo_store = Doc (JDict demo_movies_doc)
  /\ dict_get "next_id" demo_movies_doc = Some (JInt 4)
  /\ dict_get "movies" demo_movies_doc = Some (JDict demo_movies)
  /\ forallb wf_movie (dict_values demo_movies) = true
  /\ wf_movie (JDict [("title", JStr "Nova")]) = true
  /\ forallb wf_movie
       (dict_values
          (items_of "movies"
             (movies_file
                (snd (add_movie plain_repr [("title", JStr "Nova")] "t1"
                        demo_store))))) = true.
Proof.
  do 5 (split; [reflexivity|]).
  exact (proj1
           (movies_stay_well_formed plain_repr demo_store demo_movies_doc
              demo_movies 4 eq_refl eq_refl eq_refl eq_refl)
           [("title", JStr "Nova")] "t1" eq_refl).
Defined.

Lemma pending_count_matches_listing_witness :
  requests_file demo_store = Doc (JDict demo_requests_doc)
  /\ dict_get "requests" demo_requests_doc = Some (JDict demo_requests)
  /\ forallb wf_request (dict_values demo_requests) = true
  /\ loaded (users_file demo_store) = JDict demo_users
  /\ fst (get_total_pending_requests_count demo_store)
     = Ok (Z.of_nat
             (List.length (filter is_pending (dict_values demo_requests)))).
Proof.
  do 4 (split; [reflexivity|]).
  exact (proj1
           (pending_count_matches_listing plain_repr demo_store
              demo_requests_doc demo_requests demo_users
              eq_refl eq_refl eq_refl eq_refl)).
Defined.

Lemma update_request_status_record_witness :
  requests_file demo_store = Doc (JDict demo_requests_doc)
  /\ dict_get "requests" demo_requests_doc = Some (JDict demo_requests)
  /\ dict_mem (str_of_Z 8) demo_requests = false
  /\ update_request_status 8 "fulfilled" "2024-06-01T08:00:00" demo_store
     = (Ok JNull, demo_store).
Proof.
  do 3 (split; [reflexivity|]).
  exact (proj1 (update_request_status_record demo_store demo_requests_doc
                  demo_requests 8 "fulfilled" "2024-06-01T08:00:00"
                  eq_refl eq_refl) eq_refl).
Defined.

Lemma update_request_status_lowers_count_witness :
  requests_file demo_store = Doc (JDict demo_requests_doc)
  /\ dict_get "requests" demo_requests_doc = Some (JDict demo_requests)
  /\ forallb is_dict (dict_values demo_requests) = true
  /\ "fulfilled" <> "pending"
  /\ exists count,
       fst (get_total_pending_requests_count demo_store) = Ok count
       /\ fst (get_total_pending_requests_count
                 (snd (update_request_status 1 "fulfilled"
                         "2024-06-01T08:00:00" demo_store)))
          = Ok (count - 1).
Proof.
  assert (Hne : "fulfilled" <> "pending") by discriminate.
  do 3 (split; [reflexivity|]). split; [exact Hne|].
  exact (update_request_status_lowers_count demo_store demo_requests_doc
           demo_requests
           [("request_id", JInt 1); ("user_id", JInt 42);
            ("movie_name", JStr "Inception"); ("status", JStr "pending");
            ("requested_at", JStr "2024-05-04T10:00:00")]
           1 "fulfilled" "2024-06-01T08:00:00"
           eq_refl eq_refl eq_refl eq_refl eq_refl Hne).
Defined.

Lemma new_request_listed_first_witness :
  requests_file demo_store = Doc (JDict demo_requests_doc)
  /\ dict_get "next_id" demo_requests_doc = Some (JInt 4)
  /\ dict_get "requests" demo_requests_doc = Some (JDict demo_requests)
  /\ keys_below 4 demo_requests = true
  /\ wf_requests demo_requests = true
  /\ loaded (users_file demo_store) = JDict demo_users
  /\ fst (get_pending_requests plain_repr (Z.of_nat 2) 0
            (snd (add_movie_request plain_repr 42 "Arrival"
                    "2024-06-01T08:00:00" demo_store)))
     = Ok (with_user plain_repr demo_users
             (request_entry 4 42 "Arrival" "2024-06-01T08:00:00")
           :: firstn 1 (newest_pending plain_repr demo_users demo_requests)).
Proof.
  do 6 (split; [reflexivity|]).
  exact (proj2
           (new_request_listed_first plain_repr demo_store demo_requests_doc
              demo_requests demo_users 4 42 "Arrival" "2024-06-01T08:00:00"
              eq_refl eq_refl eq_refl eq_refl eq_refl eq_refl) 1%nat).
Defined.

Lemma requests_stay_well_formed_witness :
  requests_file demo_store = Doc (JDict demo_requests_doc)
  /\ dict_get "next_id" demo_requests_doc = Some (JInt 4)
  /\ dict_get "requests" demo_requests_doc = Some (JDict demo_requests)
  /\ wf_requests demo_requests = true
  /\ wf_requests
       (items_of "requests"
          (requests_file
             (snd (update_request_status 3 "rejected" "2024-06-01T08:00:00"
                     demo_store)))) = true.
Proof.
  do 4 (split; [reflexivity|]).
  exact (proj2
           (requests_stay_well_formed plain_repr demo_store
              demo_requests_doc demo_requests 4
              eq_refl eq_refl eq_refl eq_refl)
           3 "rejected" "2024-06-01T08:00:00").
Defined.
